(** * EC2 deployment engine: the provisioning orchestrator of [src/main.py]

    The script talks to the cloud through boto3.  The cloud client is an
    external collaborator, so the program is embedded over an abstract
    capability interface ([CloudClient]); every run yields its outcome, the
    client's final state and the chronological list of observable events
    (client calls with their failure, log records, sleeps). *)

From Stdlib Require Import String Ascii List ZArith Bool Lia.
Import ListNotations.
Local Open Scope string_scope.
Local Open Scope list_scope.

(** ** Python values the program manipulates *)

(** [botocore.exceptions.ClientError]: the parsed error response and the
    name of the operation that was rejected. *)
Record client_error : Type := mk_client_error {
  error_code : string;
  error_message : string;
  operation_name : string
}.

(** [str(e)] for a [ClientError] (botocore's message template). *)
Definition str (e : client_error) : string :=
  "An error occurred (" ++ error_code e ++ ") when calling the "
    ++ operation_name e ++ " operation: " ++ error_message e.

(** The exceptions that can travel through the program. Only [ClientError]
    is ever caught by the script; [WaiterError] is what boto3 waiters raise
    (a [BotoCoreError], not a [ClientError]); [IndexError] comes from [xs[0]]
    on an empty list; [SystemExit] from [sys.exit]; [OtherError] stands for
    an exception of any other class (connection loss, missing credentials). *)
Inductive exn : Type :=
| ClientError (e : client_error)
| WaiterError (reason : string)
| IndexError
| SystemExit (code : Z)
| OtherError (description : string).

Inductive outcome (A : Type) : Type :=
| Returned (a : A)
| Raised (e : exn).
Arguments Returned {A} a.
Arguments Raised {A} e.

(** [needle in haystack] on Python strings. *)
Definition str_in (needle haystack : string) : bool :=
  match String.index 0 needle haystack with
  | Some _ => true
  | None => false
  end.

(** [str(x)] for an attribute that may be [None]. *)
Definition str_opt (x : option string) : string :=
  match x with
  | Some s => s
  | None => "None"
  end.

(** ** Requests and responses of the client API *)

Record ip_permission : Type := mk_ip_permission {
  IpProtocol : string;
  FromPort : Z;
  ToPort : Z;
  IpRanges : list string          (* the CidrIp of each range *)
}.

Record tag_specification : Type := mk_tag_specification {
  ResourceType : string;
  Tags : list (string * string)   (* Key, Value *)
}.

Record run_request : Type := mk_run_request {
  ImageId : string;
  InstanceType : string;
  KeyName : string;
  MinCount : Z;
  MaxCount : Z;
  SecurityGroupIds : list string;
  TagSpecifications : list tag_specification;
  UserData : string
}.

Record vpc : Type := mk_vpc { VpcId : string }.

Record create_group_response : Type := mk_create_group_response {
  GroupId : string
}.

Record security_group : Type := mk_security_group {
  sg_GroupId : string;
  sg_GroupName : string;
  sg_VpcId : string;
  sg_IpPermissions : list ip_permission
}.

(** The boto3 [Instance] resource object as the script uses it: its [id] and
    the cached [public_ip_address] attribute. *)
Record Instance : Type := mk_Instance {
  id : string;
  public_ip_address : option string
}.

Inductive api_call : Type :=
| DescribeVpcs
| CreateSecurityGroup (group_name description vpc_id : string)
| AuthorizeSecurityGroupIngress (group_id : string)
                                (permissions : list ip_permission)
| DescribeSecurityGroups (group_names : list string)
| CreateInstances (request : run_request)
| WaitUntilRunning (instance_id : string)
| Reload (instance_id : string)
| MonitorInstances (instance_ids : list string).

Definition response (c : api_call) : Type :=
  match c with
  | DescribeVpcs => list vpc
  | CreateSecurityGroup _ _ _ => create_group_response
  | AuthorizeSecurityGroupIngress _ _ => unit
  | DescribeSecurityGroups _ => list security_group
  | CreateInstances _ => list Instance
  | WaitUntilRunning _ => unit
  | Reload _ => option string        (* the refreshed public address *)
  | MonitorInstances _ => unit
  end.

(** The capability interface of the cloud client over its state [W]:
    [connect region] is the exception with which boto3 refuses to build an
    EC2 handle for that region name, if it does (no call is made to build a
    handle); [invoke] performs one call. *)
Class CloudClient (W : Type) : Type := {
  connect : string -> option exn;
  invoke : forall c : api_call, W -> outcome (response c) * W
}.

(** ** Observable events *)

Inductive level : Type := INFO | WARNING | ERROR.

Inductive event : Type :=
| Call (c : api_call) (failure : option exn)
| Log (l : level) (msg : string)
| Sleep (seconds : Z).

(** ** The effect monad: client state, exceptions, event output *)

Definition M (W A : Type) : Type := W -> outcome A * W * list event.

Definition ret {W A} (a : A) : M W A := fun w => (Returned a, w, []).

Definition raise {W A} (e : exn) : M W A := fun w => (Raised e, w, []).

Definition bind {W A B} (m : M W A) (k : A -> M W B) : M W B :=
  fun w =>
    match m w with
    | (Returned a, w1, t1) =>
        match k a w1 with
        | (o, w2, t2) => (o, w2, t1 ++ t2)
        end
    | (Raised e, w1, t1) => (Raised e, w1, t1)
    end.

Notation "x <- m ;; k" := (bind m (fun x => k))
  (at level 61, m at next level, right associativity).
Notation "m ;;; k" := (bind m (fun _ => k))
  (at level 61, right associativity).

(** [try: body except ClientError as e: handler e]. Exceptions of any other
    class, and those raised by the handler itself, propagate. *)
Definition try_except_ClientError {W A} (body : M W A)
    (handler : client_error -> M W A) : M W A :=
  fun w =>
    match body w with
    | (Raised (ClientError e), w1, t1) =>
        match handler e w1 with
        | (o, w2, t2) => (o, w2, t1 ++ t2)
        end
    | r => r
    end.

Definition failure_of {A} (o : outcome A) : option exn :=
  match o with
  | Returned _ => None
  | Raised e => Some e
  end.

(** One client call: run it on the client state and record it. *)
Definition call {W} `{CloudClient W} (c : api_call) : M W (response c) :=
  fun w =>
    match invoke c w with
    | (o, w1) => (o, w1, [Call c (failure_of o)])
    end.

(** [boto3.client('ec2', region_name=...)] and
    [boto3.resource('ec2', region_name=...)]: no call, no record; the handle
    is built or the construction raises. *)
Definition boto3_client {W} `{CloudClient W} (region_name : string)
    : M W unit :=
  fun w =>
    match connect region_name with
    | Some x => (Raised x, w, [])
    | None => (Returned tt, w, [])
    end.

Definition boto3_resource {W} `{CloudClient W} (region_name : string)
    : M W unit :=
  fun w =>
    match connect region_name with
    | Some x => (Raised x, w, [])
    | None => (Returned tt, w, [])
    end.

Definition logging_info {W} (msg : string) : M W unit :=
  fun w => (Returned tt, w, [Log INFO msg]).
Definition logging_warning {W} (msg : string) : M W unit :=
  fun w => (Returned tt, w, [Log WARNING msg]).
Definition logging_error {W} (msg : string) : M W unit :=
  fun w => (Returned tt, w, [Log ERROR msg]).

Definition time_sleep {W} (seconds : Z) : M W unit :=
  fun w => (Returned tt, w, [Sleep seconds]).

Definition sys_exit {W A} (code : Z) : M W A := raise (SystemExit code).

(** [xs[0]] *)
Definition first {W A} (xs : list A) : M W A :=
  match xs with
  | x :: _ => ret x
  | [] => raise IndexError
  end.

(** The status with which the interpreter leaves when [main()] ends with
    the given outcome: 0 on return, the code of [sys.exit], 1 after the
    traceback of any other uncaught exception. *)
Definition exit_status {A} (o : outcome A) : Z :=
  match o with
  | Returned _ => 0
  | Raised (SystemExit code) => code
  | Raised _ => 1
  end.

(** ** Configuration *)

Definition nl : string := String "010"%char EmptyString.
Definition dq : string := String "034"%char EmptyString.

Definition EC2_INSTANCE_TYPE : string := "t3.medium".
Definition EC2_SECURITY_GROUP_NAME : string := "langraph-web-sg".
Definition EC2_TAG_NAME : string := "LangraphWebServer".

Definition EC2_USER_DATA_SCRIPT : string :=
  String.concat nl [
    "#!/bin/bash";
    "sudo apt-get update -y";
    "sudo apt-get install -y python3-pip nginx";
    "pip3 install langraph flask";
    "cat <<EOF > /home/ubuntu/app.py";
    "from flask import Flask, request, jsonify";
    "import langraph";
    "";
    "app = Flask(__name__)";
    "";
    "@app.route('/')";
    "def home():";
    ("    return " ++ dq ++ "Welcome to Langraph-powered Website!" ++ dq)%string;
    "";
    "@app.route('/ai', methods=['POST'])";
    "def ai_feature():";
    "    data = request.json";
    "    # Example: Use Langraph to process input";
    "    result = langraph.process(data.get('text', ''))";
    "    return jsonify({'result': result})";
    "";
    "if __name__ == '__main__':";
    "    app.run(host='0.0.0.0', port=5000)";
    "EOF";
    "nohup python3 /home/ubuntu/app.py &";
    "sudo rm /etc/nginx/sites-enabled/default";
    "echo 'server { listen 80; location / { proxy_pass http://localhost:5000; } }' | sudo tee /etc/nginx/sites-available/langraph";
    "sudo ln -s /etc/nginx/sites-available/langraph /etc/nginx/sites-enabled/";
    "sudo systemctl restart nginx";
    ""
  ].

(** [os.getenv(name, default)] *)
Definition os_getenv (environ : string -> option string)
    (name default : string) : string :=
  match environ name with
  | Some v => v
  | None => default
  end.

(** The two ingress rules the resolver installs (SSH and HTTP). *)
Definition INGRESS_RULES : list ip_permission :=
  [ mk_ip_permission "tcp" 22 22 ["0.0.0.0/0"];
    mk_ip_permission "tcp" 80 80 ["0.0.0.0/0"] ].

(** ** The program *)

(** [environ] is the process environment the module-level configuration
    reads.  The boto3 handles the script builds ([boto3.resource] and
    [boto3.client] in [launch_ec2_instance], [boto3.client] again in
    [setup_monitoring]) are built for [AWS_REGION] and all address the same
    cloud: the client state [W]. *)
Section Program.

Variable environ : string -> option string.
Context {W : Type} {client : CloudClient W}.

Definition AWS_REGION : string := os_getenv environ "AWS_REGION" "us-east-1".
Definition EC2_AMI_ID : string :=
  os_getenv environ "EC2_AMI_ID" "ami-0c94855ba95c71c99".
Definition EC2_KEY_NAME : string :=
  os_getenv environ "EC2_KEY_NAME" "my-ec2-keypair".

Definition create_security_group (vpc_id : string) : M W string :=
  try_except_ClientError
    (response <- call (CreateSecurityGroup EC2_SECURITY_GROUP_NAME
                         "Security group for Langraph web server" vpc_id) ;;
     let sg_id := GroupId response in
     logging_info ("Created security group " ++ EC2_SECURITY_GROUP_NAME
                     ++ " with ID " ++ sg_id) ;;;
     call (AuthorizeSecurityGroupIngress sg_id INGRESS_RULES) ;;;
     logging_info "Configured security group ingress rules." ;;;
     ret sg_id)
    (fun e =>
       if str_in "InvalidGroup.Duplicate" (str e) then
         sgs <- call (DescribeSecurityGroups [EC2_SECURITY_GROUP_NAME]) ;;
         sg <- first sgs ;;
         ret (sg_GroupId sg)
       else
         logging_error ("Error creating security group: " ++ str e) ;;;
         sys_exit 1).

Definition instance_request (sg_id : string) : run_request :=
  {| ImageId := EC2_AMI_ID;
     InstanceType := EC2_INSTANCE_TYPE;
     KeyName := EC2_KEY_NAME;
     MinCount := 1;
     MaxCount := 1;
     SecurityGroupIds := [sg_id];
     TagSpecifications :=
       [ {| ResourceType := "instance";
            Tags := [("Name", EC2_TAG_NAME)] |} ];
     UserData := EC2_USER_DATA_SCRIPT |}.

Definition launch_ec2_instance : M W Instance :=
  boto3_resource AWS_REGION ;;;
  boto3_client AWS_REGION ;;;
  vpcs <- call DescribeVpcs ;;
  v <- first vpcs ;;
  let vpc_id := VpcId v in
  sg_id <- create_security_group vpc_id ;;
  try_except_ClientError
    (instances <- call (CreateInstances (instance_request sg_id)) ;;
     instance <- first instances ;;
     logging_info ("Launching EC2 instance " ++ id instance ++ "...") ;;;
     call (WaitUntilRunning (id instance)) ;;;
     address <- call (Reload (id instance)) ;;
     let instance := {| id := id instance; public_ip_address := address |} in
     let public_ip := public_ip_address instance in
     logging_info ("EC2 instance is running at " ++ str_opt public_ip) ;;;
     ret instance)
    (fun e =>
       logging_error ("Error launching EC2 instance: " ++ str e) ;;;
       sys_exit 1).

Definition setup_monitoring (instance_id : string) : M W unit :=
  boto3_client AWS_REGION ;;;
  try_except_ClientError
    (call (MonitorInstances [instance_id]) ;;;
     logging_info ("Enabled detailed monitoring for instance " ++ instance_id))
    (fun e =>
       logging_warning ("Could not enable monitoring: " ++ str e)).

Definition main : M W unit :=
  logging_info "Starting Langraph website deployment on AWS EC2..." ;;;
  instance <- launch_ec2_instance ;;
  setup_monitoring (id instance) ;;;
  logging_info "Waiting for web server to start..." ;;;
  time_sleep 60 ;;;
  let public_ip := public_ip_address instance in
  logging_info ("Website should be available at: http://"
                  ++ str_opt public_ip ++ "/") ;;;
  logging_info ("AI-powered features available at: http://"
                  ++ str_opt public_ip
                  ++ "/ai (POST JSON: {'text': 'your input'})") ;;;
  logging_info "Deployment complete. Monitor instance in AWS Console for resource usage and uptime.".

End Program.

(** ** Views of an event list *)

(** The kind of a client call, without its arguments. *)
Inductive operation : Type :=
| OpDescribeVpcs
| OpCreateSecurityGroup
| OpAuthorizeSecurityGroupIngress
| OpDescribeSecurityGroups
| OpCreateInstances
| OpWaitUntilRunning
| OpReload
| OpMonitorInstances.

Definition op_of (c : api_call) : operation :=
  match c with
  | DescribeVpcs => OpDescribeVpcs
  | CreateSecurityGroup _ _ _ => OpCreateSecurityGroup
  | AuthorizeSecurityGroupIngress _ _ => OpAuthorizeSecurityGroupIngress
  | DescribeSecurityGroups _ => OpDescribeSecurityGroups
  | CreateInstances _ => OpCreateInstances
  | WaitUntilRunning _ => OpWaitUntilRunning
  | Reload _ => OpReload
  | MonitorInstances _ => OpMonitorInstances
  end.

Definition operation_eqb (a b : operation) : bool :=
  match a, b with
  | OpDescribeVpcs, OpDescribeVpcs
  | OpCreateSecurityGroup, OpCreateSecurityGroup
  | OpAuthorizeSecurityGroupIngress, OpAuthorizeSecurityGroupIngress
  | OpDescribeSecurityGroups, OpDescribeSecurityGroups
  | OpCreateInstances, OpCreateInstances
  | OpWaitUntilRunning, OpWaitUntilRunning
  | OpReload, OpReload
  | OpMonitorInstances, OpMonitorInstances => true
  | _, _ => false
  end.

(** The client calls of a run, in order. *)
Fixpoint calls_of (t : list event) : list api_call :=
  match t with
  | [] => []
  | Call c _ :: t' => c :: calls_of t'
  | _ :: t' => calls_of t'
  end.

(** The steps of a run that take effect outside the process: client
    operations and sleeps, in order (log records dropped). *)
Inductive action : Type :=
| Do (op : operation)
| Wait (seconds : Z).

Fixpoint actions_of (t : list event) : list action :=
  match t with
  | [] => []
  | Call c _ :: t' => Do (op_of c) :: actions_of t'
  | Sleep n :: t' => Wait n :: actions_of t'
  | Log _ _ :: t' => actions_of t'
  end.

(** The log records of a run at a given level, in order. *)
Fixpoint logged (l : level) (t : list event) : list string :=
  match t with
  | [] => []
  | Log l' msg :: t' =>
      match l, l' with
      | INFO, INFO | WARNING, WARNING | ERROR, ERROR => msg :: logged l t'
      | _, _ => logged l t'
      end
  | _ :: t' => logged l t'
  end.

(** How many calls of a run are of the given kind. *)
Definition count_op (op : operation) (t : list event) : nat :=
  List.length (List.filter (fun c => operation_eqb (op_of c) op) (calls_of t)).

(** How many group-creation calls of a run name the given group. *)
Definition group_creations (name : string) (t : list event) : nat :=
  List.length
    (List.filter
       (fun c => match c with
                 | CreateSecurityGroup n _ _ => String.eqb n name
                 | _ => false
                 end)
       (calls_of t)).

(** Does a rule set admit inbound traffic of this protocol on this port from
    this source range? *)
Definition permits (rules : list ip_permission)
    (protocol : string) (port : Z) (cidr : string) : bool :=
  List.existsb
    (fun r => String.eqb (IpProtocol r) protocol
              && (FromPort r <=? port)%Z && (port <=? ToPort r)%Z
              && List.existsb (String.eqb cidr) (IpRanges r))
    rules.

(** ** A reference cloud *)

(** Modelled from the spec: the Cloud Resource Client is an external
    collaborator (boto3 and the provider behind it) and is absent from the
    repository.  The program above takes it as a parameter ([CloudClient]);
    this module is one executable client, in the manner of the fake client of
    the end-to-end scenarios: networks, security groups (a name is unique per
    network) and instances; identifiers and addresses handed out from a
    scripted supply; failures injected per operation; a new instance answering
    a scripted number of polls with "pending" before it runs.  The by-name
    lookup is given names only, as in the script's call. *)
Module Fake.

Record instance_record : Type := mk_instance_record {
  i_id : string;
  i_request : run_request;
  i_pending_polls : nat;         (* polls still answered "pending" *)
  i_address : option string;     (* assigned once running *)
  i_monitoring : bool
}.

Record slot : Type := mk_slot {
  slot_id : string;
  slot_address : option string;
  slot_pending_polls : nat
}.

Record cloud : Type := mk_cloud {
  networks : list string;
  groups : list security_group;
  instances : list instance_record;
  group_ids : list string;       (* identifiers still available *)
  slots : list slot;             (* instance capacity still available *)
  faults : list (operation * exn)
}.

(** The waiter gives up after this many polls. *)
Definition WAITER_MAX_ATTEMPTS : nat := 40.

Fixpoint injected (op : operation) (fs : list (operation * exn))
    : option exn :=
  match fs with
  | [] => None
  | (op', e) :: fs' => if operation_eqb op' op then Some e else injected op fs'
  end.

Definition rejected {A} (code message operation : string) : outcome A :=
  Raised (ClientError (mk_client_error code message operation)).

Definition named (name : string) (g : security_group) : bool :=
  String.eqb (sg_GroupName g) name.

Definition in_network (v : string) (g : security_group) : bool :=
  String.eqb (sg_VpcId g) v.

Definition has_id (g_id : string) (g : security_group) : bool :=
  String.eqb (sg_GroupId g) g_id.

Definition mem (x : string) (xs : list string) : bool :=
  List.existsb (String.eqb x) xs.

Definition create_group (name vpc_id : string) (s : cloud)
    : outcome create_group_response * cloud :=
  if negb (mem vpc_id (networks s)) then
    (rejected "InvalidVpcID.NotFound"
       ("The vpc ID '" ++ vpc_id ++ "' does not exist")
       "CreateSecurityGroup", s)
  else if List.existsb (fun g => named name g && in_network vpc_id g)
                       (groups s) then
    (rejected "InvalidGroup.Duplicate"
       ("The security group '" ++ name ++ "' already exists for VPC '"
          ++ vpc_id ++ "'")
       "CreateSecurityGroup", s)
  else
    match group_ids s with
    | [] =>
        (rejected "SecurityGroupLimitExceeded"
           "The maximum number of security groups has been reached"
           "CreateSecurityGroup", s)
    | g_id :: rest =>
        (Returned (mk_create_group_response g_id),
         {| networks := networks s;
            groups := groups s ++ [mk_security_group g_id name vpc_id []];
            instances := instances s;
            group_ids := rest;
            slots := slots s;
            faults := faults s |})
    end.

Definition add_rules (g_id : string) (rules : list ip_permission)
    (g : security_group) : security_group :=
  if has_id g_id g then
    mk_security_group (sg_GroupId g) (sg_GroupName g) (sg_VpcId g)
                      (sg_IpPermissions g ++ rules)
  else g.

Definition authorize (g_id : string) (rules : list ip_permission)
    (s : cloud) : outcome unit * cloud :=
  if List.existsb (has_id g_id) (groups s) then
    (Returned tt,
     {| networks := networks s;
        groups := List.map (add_rules g_id rules) (groups s);
        instances := instances s;
        group_ids := group_ids s;
        slots := slots s;
        faults := faults s |})
  else
    (rejected "InvalidGroup.NotFound"
       ("The security group '" ++ g_id ++ "' does not exist")
       "AuthorizeSecurityGroupIngress", s).

Definition lookup_groups (names : list string) (s : cloud)
    : outcome (list security_group) * cloud :=
  (Returned (List.filter (fun g => mem (sg_GroupName g) names) (groups s)),
   s).

Definition launch_one (r : run_request) (sl : slot) : instance_record :=
  mk_instance_record (slot_id sl) r (slot_pending_polls sl)
                     (slot_address sl) false.

Definition run_instances (r : run_request) (s : cloud)
    : outcome (list Instance) * cloud :=
  if negb (List.forallb (fun g_id => List.existsb (has_id g_id) (groups s))
                        (SecurityGroupIds r)) then
    (rejected "InvalidGroup.NotFound" "The security group does not exist"
       "RunInstances", s)
  else if ((MinCount r <? 1) || (MaxCount r <? MinCount r))%Z then
    (rejected "InvalidParameterValue" "Invalid instance count"
       "RunInstances", s)
  else
    let granted := List.firstn (Z.to_nat (MaxCount r)) (slots s) in
    if (Z.of_nat (List.length granted) <? MinCount r)%Z then
      (rejected "InstanceLimitExceeded"
         "The requested number of instances exceeds the limit"
         "RunInstances", s)
    else
      (Returned (List.map (fun sl => mk_Instance (slot_id sl) None) granted),
       {| networks := networks s;
          groups := groups s;
          instances := instances s ++ List.map (launch_one r) granted;
          group_ids := group_ids s;
          slots := List.skipn (Z.to_nat (MaxCount r)) (slots s);
          faults := faults s |}).

(** One bounded polling loop: [true] when a poll saw the instance running. *)
Fixpoint poll (attempts pending : nat) : bool * nat :=
  match attempts with
  | O => (false, pending)
  | S attempts' =>
      match pending with
      | O => (true, O)
      | S pending' => poll attempts' pending'
      end
  end.

Definition is_instance (i_id' : string) (i : instance_record) : bool :=
  String.eqb (i_id i) i_id'.

Definition polled (i_id' : string) (i : instance_record) : instance_record :=
  if is_instance i_id' i then
    mk_instance_record (i_id i) (i_request i)
      (snd (poll WAITER_MAX_ATTEMPTS (i_pending_polls i)))
      (i_address i) (i_monitoring i)
  else i.

Definition with_instances (s : cloud) (insts : list instance_record)
    : cloud :=
  {| networks := networks s;
     groups := groups s;
     instances := insts;
     group_ids := group_ids s;
     slots := slots s;
     faults := faults s |}.

Definition wait_until_running (i_id' : string) (s : cloud)
    : outcome unit * cloud :=
  match List.find (is_instance i_id') (instances s) with
  | None => (Raised (WaiterError "Max attempts exceeded"), s)
  | Some i =>
      let s' := with_instances s (List.map (polled i_id') (instances s)) in
      if fst (poll WAITER_MAX_ATTEMPTS (i_pending_polls i)) then
        (Returned tt, s')
      else (Raised (WaiterError "Max attempts exceeded"), s')
  end.

Definition reload (i_id' : string) (s : cloud)
    : outcome (option string) * cloud :=
  match List.find (is_instance i_id') (instances s) with
  | None =>
      (rejected "InvalidInstanceID.NotFound"
         ("The instance ID '" ++ i_id' ++ "' does not exist")
         "DescribeInstances", s)
  | Some i =>
      (Returned (match i_pending_polls i with
                 | O => i_address i
                 | S _ => None
                 end), s)
  end.

Definition monitored (ids : list string) (i : instance_record)
    : instance_record :=
  if mem (i_id i) ids then
    mk_instance_record (i_id i) (i_request i) (i_pending_polls i)
                       (i_address i) true
  else i.

Definition monitor (ids : list string) (s : cloud) : outcome unit * cloud :=
  if List.forallb
       (fun i_id' => List.existsb (is_instance i_id') (instances s)) ids then
    (Returned tt, with_instances s (List.map (monitored ids) (instances s)))
  else
    (rejected "InvalidInstanceID.NotFound" "The instance ID does not exist"
       "MonitorInstances", s).

Definition serve (c : api_call) (s : cloud) : outcome (response c) * cloud :=
  match injected (op_of c) (faults s) with
  | Some e => (Raised e, s)
  | None =>
      match c return outcome (response c) * cloud with
      | DescribeVpcs => (Returned (List.map mk_vpc (networks s)), s)
      | CreateSecurityGroup name _ vpc_id => create_group name vpc_id s
      | AuthorizeSecurityGroupIngress g_id rules => authorize g_id rules s
      | DescribeSecurityGroups names => lookup_groups names s
      | CreateInstances r => run_instances r s
      | WaitUntilRunning i_id' => wait_until_running i_id' s
      | Reload i_id' => reload i_id' s
      | MonitorInstances ids => monitor ids s
      end
  end.

(** botocore's [validate_region_name]: a region name must be a host label,
    that is at most 63 letters, digits and hyphens, not all digits, with no
    hyphen first or last (the pattern's [$] lets one final newline pass). *)
Definition label_char (c : ascii) : bool :=
  let n := nat_of_ascii c in
  (((48 <=? n) && (n <=? 57)) || ((65 <=? n) && (n <=? 90))
   || ((97 <=? n) && (n <=? 122)) || (n =? 45))%nat.

Definition digit_char (c : ascii) : bool :=
  let n := nat_of_ascii c in ((48 <=? n) && (n <=? 57))%nat.

Definition hyphen_char (c : ascii) : bool := (nat_of_ascii c =? 45)%nat.

Definition chomp (cs : list ascii) : list ascii :=
  match List.rev cs with
  | c :: rest => if (nat_of_ascii c =? 10)%nat then List.rev rest else cs
  | [] => cs
  end.

Definition valid_region_name (region_name : string) : bool :=
  let cs := chomp (list_ascii_of_string region_name) in
  List.forallb label_char cs
  && (List.length cs <=? 63)%nat
  && negb (negb (List.length cs =? 0)%nat && List.forallb digit_char cs)
  && negb (match cs with c :: _ => hyphen_char c | [] => false end)
  && negb (match List.rev cs with c :: _ => hyphen_char c | [] => false end).

Definition refuse_region (region_name : string) : option exn :=
  if valid_region_name region_name then None
  else Some (OtherError
               ("InvalidRegionError: Provided region_name '" ++ region_name
                  ++ "' doesn't match a supported format.")).

#[global] Instance client : CloudClient cloud :=
  {| connect := refuse_region; invoke := serve |}.

(** The environment and the cloud of the end-to-end scenario: one network,
    no group yet, group identifier "sg-001" and instance "i-001" (running
    after two polls, address 203.0.113.5) next in the supply. *)
Definition scenario_environ (name : string) : option string :=
  if String.eqb name "EC2_AMI_ID" then Some "img-1"
  else if String.eqb name "EC2_KEY_NAME" then Some "k1"
  else None.

Definition scenario_cloud : cloud :=
  {| networks := ["vpc-1"];
     groups := [];
     instances := [];
     group_ids := ["sg-001"];
     slots := [mk_slot "i-001" (Some "203.0.113.5") 2];
     faults := [] |}.

(** The groups of a cloud carrying a given name. *)
Definition groups_named (name : string) (s : cloud) : list security_group :=
  List.filter (named name) (groups s).

(** The instances of a cloud tagged [Name = name]. *)
Definition request_tagged (name : string) (r : run_request) : bool :=
  List.existsb
    (fun ts => String.eqb (ResourceType ts) "instance"
               && List.existsb
                    (fun kv => String.eqb (fst kv) "Name"
                               && String.eqb (snd kv) name)
                    (Tags ts))
    (TagSpecifications r).

Definition tagged (name : string) (i : instance_record) : bool :=
  request_tagged name (i_request i).

Definition instances_tagged (name : string) (s : cloud)
    : list instance_record :=
  List.filter (tagged name) (instances s).


End Fake.

(** ** Vocabulary of the statements *)

(** The two calls of the resolver, as the script writes them. *)
Definition create_group_call (vpc_id : string) : api_call :=
  CreateSecurityGroup EC2_SECURITY_GROUP_NAME
    "Security group for Langraph web server" vpc_id.

Definition lookup_call : api_call :=
  DescribeSecurityGroups [EC2_SECURITY_GROUP_NAME].

(** The three components of a run. *)
Definition outcome_of {W A} (r : outcome A * W * list event) : outcome A :=
  fst (fst r).
Definition final_of {W A} (r : outcome A * W * list event) : W :=
  snd (fst r).
Definition events_of {W A} (r : outcome A * W * list event) : list event :=
  snd r.

(** What the orchestrator does once monitoring has been attempted: the
    settle wait and the endpoint report. *)
Definition settle_and_report (instance : Instance) : list event :=
  [ Log INFO "Waiting for web server to start...";
    Sleep 60;
    Log INFO ("Website should be available at: http://"
                ++ str_opt (public_ip_address instance) ++ "/");
    Log INFO ("AI-powered features available at: http://"
                ++ str_opt (public_ip_address instance)
                ++ "/ai (POST JSON: {'text': 'your input'})");
    Log INFO "Deployment complete. Monitor instance in AWS Console for resource usage and uptime." ].

Definition START_RECORD : event :=
  Log INFO "Starting Langraph website deployment on AWS EC2...".

(** Clouds used as concrete inputs. *)
Module Inputs.
Import Fake.

(** The configured group already exists in the only network. *)
Definition existing_group_cloud : cloud :=
  {| networks := ["vpc-1"];
     groups := [mk_security_group "sg-existing" EC2_SECURITY_GROUP_NAME
                                  "vpc-1" []];
     instances := [];
     group_ids := ["sg-001"];
     slots := [mk_slot "i-001" (Some "203.0.113.5") 2];
     faults := [] |}.

(** No group identifier is left: creation is rejected (quota). *)
Definition exhausted_cloud : cloud :=
  {| networks := ["vpc-1"];
     groups := [];
     instances := [];
     group_ids := [];
     slots := [mk_slot "i-001" (Some "203.0.113.5") 2];
     faults := [] |}.



(** The scenario cloud with one call rejected by the provider. *)
Definition failing (op : operation) (code : string) : cloud :=
  {| networks := networks scenario_cloud;
     groups := groups scenario_cloud;
     instances := instances scenario_cloud;
     group_ids := group_ids scenario_cloud;
     slots := slots scenario_cloud;
     faults := [(op, ClientError (mk_client_error code "rejected" "op"))] |}.

(** The scenario cloud whose instance stays pending for 100 polls. *)
Definition stuck_cloud : cloud :=
  {| networks := networks scenario_cloud;
     groups := groups scenario_cloud;
     instances := instances scenario_cloud;
     group_ids := group_ids scenario_cloud;
     slots := [mk_slot "i-001" (Some "203.0.113.5") 100];
     faults := [] |}.

(** Network "vpc-A" is empty while "vpc-B" already holds a group with the
    configured name. *)
Definition two_network_cloud : cloud :=
  {| networks := ["vpc-A"; "vpc-B"];
     groups := [mk_security_group "sg-B" EC2_SECURITY_GROUP_NAME "vpc-B" []];
     instances := [];
     group_ids := ["sg-001"];
     slots := [];
     faults := [] |}.

End Inputs.

(** Clouds used as further concrete inputs. *)
Module MoreInputs.
Import Fake.

(** The scenario cloud with one call failing with a given exception. *)
Definition raising (op : operation) (x : exn) : cloud :=
  {| networks := networks scenario_cloud;
     groups := groups scenario_cloud;
     instances := instances scenario_cloud;
     group_ids := group_ids scenario_cloud;
     slots := slots scenario_cloud;
     faults := [(op, x)] |}.

(** A rejection of another kind whose message quotes the marker. *)
Definition QUOTING_ERROR : client_error :=
  mk_client_error "InvalidParameterValue"
    "Value (InvalidGroup.Duplicate) for parameter groupName is invalid"
    "CreateSecurityGroup".

(** The scenario cloud whose instance gets no public address. *)
Definition private_cloud : cloud :=
  {| networks := networks scenario_cloud;
     groups := groups scenario_cloud;
     instances := instances scenario_cloud;
     group_ids := group_ids scenario_cloud;
     slots := [mk_slot "i-001" None 2];
     faults := [] |}.


(** The configured group exists in the only network, and the provider
    rejects every lookup (throttling). *)
Definition unreadable_group_cloud : cloud :=
  {| networks := ["vpc-1"];
     groups := [mk_security_group "sg-existing" EC2_SECURITY_GROUP_NAME
                                  "vpc-1" []];
     instances := [];
     group_ids := ["sg-001"];
     slots := [mk_slot "i-001" (Some "203.0.113.5") 2];
     faults :=
       [(OpDescribeSecurityGroups,
         ClientError (mk_client_error "RequestLimitExceeded"
                        "Request limit exceeded."
                        "DescribeSecurityGroups"))] |}.


(** The same cloud once the provider rejects nothing any more. *)
Definition recovered (s : cloud) : cloud :=
  {| networks := networks s;
     groups := groups s;
     instances := instances s;
     group_ids := group_ids s;
     slots := slots s;
     faults := [] |}.

End MoreInputs.

(** The order of the outward steps of a run; [path] is what the resolver
    does after its creation call. *)
Definition linear_order (path : list action) : list action :=
  [Do OpDescribeVpcs; Do OpCreateSecurityGroup] ++ path
    ++ [Do OpCreateInstances; Do OpWaitUntilRunning; Do OpReload;
        Do OpMonitorInstances; Wait 60].

(** New group: rules applied. Existing group: looked up. Rules rejected
    with a duplicate-classified error: looked up after the attempt. *)
Definition resolver_paths : list (list action) :=
  [ [Do OpAuthorizeSecurityGroupIngress];
    [Do OpDescribeSecurityGroups];
    [Do OpAuthorizeSecurityGroupIngress; Do OpDescribeSecurityGroups] ].

(** The tag specification every launch request carries. *)
Definition NAME_TAG : list tag_specification :=
  [ {| ResourceType := "instance"; Tags := [("Name", EC2_TAG_NAME)] |} ].

Definition asks_for_one_instance (c : api_call) : Prop :=
  match c with
  | CreateInstances r =>
      MinCount r = 1%Z /\ MaxCount r = 1%Z /\ TagSpecifications r = NAME_TAG
  | _ => True
  end.

Definition applies_configured_rules (c : api_call) : Prop :=
  match c with
  | AuthorizeSecurityGroupIngress _ rules => rules = INGRESS_RULES
  | _ => True
  end.


(** Every group carrying the name lives in the given network. *)
Definition name_confined_to (name vpc_id : string) (s : Fake.cloud) : bool :=
  List.forallb
    (fun g => implb (Fake.named name g) (Fake.in_network vpc_id g))
    (Fake.groups s).

(** The launch requests behind the instances of a cloud, oldest first. *)
Definition launch_requests (s : Fake.cloud) : list run_request :=
  List.map Fake.i_request (Fake.instances s).

(** The requests a call adds to the cloud, given its answer. *)
Definition launched (c : api_call) : outcome (response c) -> list run_request :=
  match c return outcome (response c) -> list run_request with
  | CreateInstances r =>
      fun o =>
        match o with
        | Returned l => List.map (fun _ => r) l
        | Raised _ => []
        end
  | _ => fun _ => []
  end.

(** What becomes of a run in which call [c] was rejected with [e]. *)
Definition fate_of_client_error (c : api_call) (e : client_error)
    (o : outcome unit) (t : list event) : Prop :=
  match op_of c with
  | OpDescribeVpcs | OpDescribeSecurityGroups =>
      o = Raised (ClientError e) /\ logged ERROR t = []
  | OpCreateSecurityGroup | OpAuthorizeSecurityGroupIngress =>
      (str_in "InvalidGroup.Duplicate" (str e) = true
       /\ count_op OpDescribeSecurityGroups t = 1)
      \/ (str_in "InvalidGroup.Duplicate" (str e) = false
          /\ o = Raised (SystemExit 1)
          /\ logged ERROR t
             = [("Error creating security group: " ++ str e)%string])
  | OpCreateInstances | OpWaitUntilRunning | OpReload =>
      o = Raised (SystemExit 1)
      /\ logged ERROR t = [("Error launching EC2 instance: " ++ str e)%string]
  | OpMonitorInstances =>
      o = Returned tt
      /\ logged WARNING t = [("Could not enable monitoring: " ++ str e)%string]
      /\ logged ERROR t = []
  end.

(** Call [c], when directed at an instance, is directed at [i]. *)
Definition targets (i : string) (c : api_call) : Prop :=
  match c with
  | WaitUntilRunning j | Reload j => j = i
  | MonitorInstances js => js = [i]
  | _ => True
  end.



(** ** Proof automation *)

(** Unfold the program down to the client's answers. *)
Ltac unfold_program :=
  unfold main, launch_ec2_instance, setup_monitoring, create_security_group,
    try_except_ClientError, bind, call, first, boto3_resource, boto3_client,
    logging_info, logging_warning,
    logging_error, time_sleep, sys_exit, raise, ret,
    create_group_call, lookup_call in *.

(** Unfold the orchestrator and the provisioner, not the resolver. *)
Ltac unfold_orchestrator :=
  unfold main, launch_ec2_instance, setup_monitoring, try_except_ClientError,
    bind, call, first, boto3_resource, boto3_client,
    logging_info, logging_warning, logging_error,
    time_sleep, sys_exit, raise, ret in *.

(** Use a known answer of the client. *)
Ltac answer H := rewrite H; cbn [failure_of app fst snd].

(** Split on the next unknown answer of the client. *)
Ltac next_answer :=
  match goal with
  | |- context [invoke ?c ?w] =>
      let o := fresh "o" in
      let w' := fresh "w" in
      let E := fresh "E" in
      destruct (invoke c w) as [o w'] eqn:E;
      cbn [response] in o;
      destruct o as [? | [? | ? | | ? | ?]];
      cbn [failure_of app fst snd]
  end.

(** Split on whether the handles can be built. *)
Ltac handles_built :=
  match goal with
  | |- context [connect ?r] =>
      let C := fresh "Hconnect" in
      destruct (connect r) eqn:C; cbn [failure_of app fst snd]
  end.

(** Follow every path of the program: split on the construction of the
    handles, on each answer of the client, on each list subscripted with [0]
    and on each classification of an error. *)
Ltac explore :=
  repeat
    first
      [ handles_built
      | next_answer
      | match goal with
        | |- context [match ?l with [] => _ | _ :: _ => _ end] =>
            is_var l; destruct l; cbn [failure_of app fst snd]
        | |- context [if str_in ?a ?b then _ else _] =>
            let D := fresh "Hdup" in
            destruct (str_in a b) eqn:D; cbn [failure_of app fst snd]
        | x : unit |- _ => destruct x
        end ].

(** Case analysis on a membership hypothesis over an explicit event list. *)
Ltac which_event H :=
  cbn [In] in H;
  repeat match type of H with
         | _ \/ _ => destruct H as [H | H]
         end;
  try discriminate H; try contradiction H.

(** Exhibit the order of a successful run whose events are explicit. *)
Ltac linear_with p i :=
  exists p, i;
  match goal with
  | |- exists before, _ /\ _ /\ ?t = _ /\ _ =>
      exists (firstn (length t - 5) t)
  end;
  split; [cbn [In resolver_paths]; tauto |];
  split; [reflexivity |];
  split; reflexivity.

(** ** Runs of the resolver *)

Section Runs.

Variable environ : string -> option string.
Context {W : Type} {client : CloudClient W}.

(** The resolver when the creation call is rejected as a duplicate: one
    creation attempt, then one lookup, whatever the lookup answers. *)
Lemma resolver_duplicate_run (vpc_id : string) (w w1 : W) (e : client_error) :
  invoke (create_group_call vpc_id) w = (Raised (ClientError e), w1) ->
  str_in "InvalidGroup.Duplicate" (str e) = true ->
  create_security_group vpc_id w =
    match invoke lookup_call w1 with
    | (Returned (sg :: _), w2) =>
        (Returned (sg_GroupId sg), w2,
         [Call (create_group_call vpc_id) (Some (ClientError e));
          Call lookup_call None])
    | (Returned [], w2) =>
        (Raised IndexError, w2,
         [Call (create_group_call vpc_id) (Some (ClientError e));
          Call lookup_call None])
    | (Raised x, w2) =>
        (Raised x, w2,
         [Call (create_group_call vpc_id) (Some (ClientError e));
          Call lookup_call (Some x)])
    end.
Proof.
  intros Hcreate Hdup. unfold_program.
  answer Hcreate. rewrite Hdup.
  destruct (invoke (DescribeSecurityGroups [EC2_SECURITY_GROUP_NAME]) w1)
    as [[[|sg rest] | x] w2]; reflexivity.
Qed.

(** The resolver when the creation call is rejected for another reason. *)
Lemma resolver_fatal_run (vpc_id : string) (w w1 : W) (e : client_error) :
  invoke (create_group_call vpc_id) w = (Raised (ClientError e), w1) ->
  str_in "InvalidGroup.Duplicate" (str e) = false ->
  create_security_group vpc_id w =
    (Raised (SystemExit 1), w1,
     [Call (create_group_call vpc_id) (Some (ClientError e));
      Log ERROR ("Error creating security group: " ++ str e)]).
Proof.
  intros Hcreate Hdup. unfold_program.
  answer Hcreate. rewrite Hdup. reflexivity.
Qed.

(** The resolver when the group is created and its rules accepted. *)
Lemma resolver_created_run (vpc_id : string) (w w1 w2 : W)
    (r : create_group_response) :
  invoke (create_group_call vpc_id) w = (Returned r, w1) ->
  invoke (AuthorizeSecurityGroupIngress (GroupId r) INGRESS_RULES) w1
    = (Returned tt, w2) ->
  create_security_group vpc_id w =
    (Returned (GroupId r), w2,
     [Call (create_group_call vpc_id) None;
      Log INFO ("Created security group " ++ EC2_SECURITY_GROUP_NAME
                  ++ " with ID " ++ GroupId r);
      Call (AuthorizeSecurityGroupIngress (GroupId r) INGRESS_RULES) None;
      Log INFO "Configured security group ingress rules."]).
Proof.
  intros Hcreate Hauth. unfold_program.
  answer Hcreate. answer Hauth. reflexivity.
Qed.

End Runs.

(** ** The security-group resolver *)

Section Resolver.

Variable environ : string -> option string.
Context {W : Type} {client : CloudClient W}.

(** C8, as amended. Once the handles are built and the network is
    discovered: when the creation call is rejected with a client error that
    is not classified as a duplicate name, the resolver logs the error and
    raises [SystemExit(1)]; the whole run then ends with exit status 1 after
    exactly two client calls (network discovery and the rejected creation):
    no instance is requested and nothing is undone.  When the creation call
    fails with an exception of another class, nothing is logged: the
    exception leaves the resolver and ends the run, again with no instance
    requested. *)
Theorem other_group_failure_is_fatal
    (w w0 w1 : W) (v : vpc) (vs : list vpc) :
  connect (AWS_REGION environ) = None ->
  invoke DescribeVpcs w = (Returned (v :: vs), w0) ->
  (forall e : client_error,
      invoke (create_group_call (VpcId v)) w0 = (Raised (ClientError e), w1) ->
      str_in "InvalidGroup.Duplicate" (str e) = false ->
      create_security_group (VpcId v) w0
        = (Raised (SystemExit 1), w1,
           [Call (create_group_call (VpcId v)) (Some (ClientError e));
            Log ERROR ("Error creating security group: " ++ str e)])
      /\ main environ w
         = (Raised (SystemExit 1), w1,
            [START_RECORD;
             Call DescribeVpcs None;
             Call (create_group_call (VpcId v)) (Some (ClientError e));
             Log ERROR ("Error creating security group: " ++ str e)])
      /\ exit_status (outcome_of (main environ w)) = 1%Z
      /\ count_op OpCreateInstances (events_of (main environ w)) = 0)
  /\ (forall x : exn,
         invoke (create_group_call (VpcId v)) w0 = (Raised x, w1) ->
         (forall e, x <> ClientError e) ->
         create_security_group (VpcId v) w0
           = (Raised x, w1, [Call (create_group_call (VpcId v)) (Some x)])
         /\ main environ w
            = (Raised x, w1,
               [START_RECORD;
                Call DescribeVpcs None;
                Call (create_group_call (VpcId v)) (Some x)])
         /\ logged ERROR (events_of (main environ w)) = []
         /\ count_op OpCreateInstances (events_of (main environ w)) = 0).
Proof.
  intros Hconnect Hvpcs. split.
  - intros e Hcreate Hdup.
    assert (Hmain : main environ w
       = (Raised (SystemExit 1), w1,
          [START_RECORD;
           Call DescribeVpcs None;
           Call (create_group_call (VpcId v)) (Some (ClientError e));
           Log ERROR ("Error creating security group: " ++ str e)])).
    { unfold_program. answer Hconnect. answer Hvpcs. answer Hcreate.
      rewrite Hdup. reflexivity. }
    split; [apply resolver_fatal_run; assumption |].
    split; [exact Hmain |].
    rewrite Hmain. split; reflexivity.
  - intros x Hcreate Hother.
    assert (Hmain : main environ w
       = (Raised x, w1,
          [START_RECORD;
           Call DescribeVpcs None;
           Call (create_group_call (VpcId v)) (Some x)])).
    { unfold_program. answer Hconnect. answer Hvpcs. answer Hcreate.
      destruct x; try reflexivity. contradiction (Hother e). reflexivity. }
    split.
    { unfold_program. answer Hcreate.
      destruct x; try reflexivity. contradiction (Hother e). reflexivity. }
    split; [exact Hmain |].
    rewrite Hmain. split; reflexivity.
Qed.


End Resolver.

(** ** The orchestrator *)

Section Orchestrator.

Variable environ : string -> option string.
Context {W : Type} {client : CloudClient W}.

(** A provisioner that returns has built its handles. *)
Lemma launch_returns_connected (w w1 : W) (instance : Instance)
    (t1 : list event) :
  launch_ec2_instance environ w = (Returned instance, w1, t1) ->
  connect (AWS_REGION environ) = None.
Proof.
  unfold launch_ec2_instance, boto3_resource, bind.
  destruct (connect (AWS_REGION environ)) as [x |];
    [intros H; discriminate H | reflexivity].
Qed.

(** The orchestrator once the provisioner has returned. *)
Lemma main_after_launch (w w1 : W) (instance : Instance) (t1 : list event) :
  launch_ec2_instance environ w = (Returned instance, w1, t1) ->
  main environ w =
    match invoke (MonitorInstances [id instance]) w1 with
    | (Returned _, w2) =>
        (Returned tt, w2,
         START_RECORD :: t1
           ++ [Call (MonitorInstances [id instance]) None;
               Log INFO ("Enabled detailed monitoring for instance "
                           ++ id instance)]
           ++ settle_and_report instance)
    | (Raised (ClientError e), w2) =>
        (Returned tt, w2,
         START_RECORD :: t1
           ++ [Call (MonitorInstances [id instance]) (Some (ClientError e));
               Log WARNING ("Could not enable monitoring: " ++ str e)]
           ++ settle_and_report instance)
    | (Raised x, w2) =>
        (Raised x, w2,
         START_RECORD :: t1
           ++ [Call (MonitorInstances [id instance]) (Some x)])
    end.
Proof.
  intros Hlaunch.
  pose proof (launch_returns_connected w w1 instance t1 Hlaunch) as Hconnect.
  unfold main, setup_monitoring, boto3_client, try_except_ClientError, bind,
    call, logging_info, logging_warning, time_sleep.
  rewrite Hlaunch, Hconnect.
  destruct (invoke (MonitorInstances [id instance]) w1)
    as [[[] | [e | r | | code | d]] w2]; reflexivity.
Qed.

(** C4, as amended. When the monitoring call is rejected with a client
    error, [setup_monitoring] logs a warning and returns; the run goes on to
    the settle wait and the endpoint report and ends like a run in which
    monitoring succeeds (normal return, exit status 0, same closing events).
    When the monitoring call fails with an exception of another class,
    nothing catches it: the run ends with that exception right after the
    call.  When the instance-creation call fails, the run ends with an
    exception and has made no monitoring call. *)
Theorem monitoring_failure_is_not_fatal :
  (forall (w w1 w2 : W) (instance : Instance) (t1 : list event)
          (e : client_error),
      launch_ec2_instance environ w = (Returned instance, w1, t1) ->
      invoke (MonitorInstances [id instance]) w1
        = (Raised (ClientError e), w2) ->
      setup_monitoring environ (id instance) w1
        = (Returned tt, w2,
           [Call (MonitorInstances [id instance]) (Some (ClientError e));
            Log WARNING ("Could not enable monitoring: " ++ str e)])
      /\ main environ w
         = (Returned tt, w2,
            START_RECORD :: t1
              ++ [Call (MonitorInstances [id instance])
                       (Some (ClientError e));
                  Log WARNING ("Could not enable monitoring: " ++ str e)]
              ++ settle_and_report instance)
      /\ exit_status (outcome_of (main environ w)) = 0%Z
      /\ forall (w' w1' w2' : W) (t1' : list event),
           launch_ec2_instance environ w' = (Returned instance, w1', t1') ->
           invoke (MonitorInstances [id instance]) w1' = (Returned tt, w2') ->
           outcome_of (main environ w') = outcome_of (main environ w)
           /\ exists before before',
               events_of (main environ w)
                 = before ++ settle_and_report instance
               /\ events_of (main environ w')
                  = before' ++ settle_and_report instance)
  /\ (forall (w w1 w2 : W) (instance : Instance) (t1 : list event)
             (x : exn),
         launch_ec2_instance environ w = (Returned instance, w1, t1) ->
         invoke (MonitorInstances [id instance]) w1 = (Raised x, w2) ->
         (forall e, x <> ClientError e) ->
         main environ w
         = (Raised x, w2,
            START_RECORD :: t1
              ++ [Call (MonitorInstances [id instance]) (Some x)]))
  /\ (forall (w : W) (r : run_request) (x : exn),
         In (Call (CreateInstances r) (Some x)) (events_of (main environ w)) ->
         count_op OpMonitorInstances (events_of (main environ w)) = 0
         /\ exists e, outcome_of (main environ w) = Raised e).
Proof.
  split; [| split].
  - intros w w1 w2 instance t1 e Hlaunch Hmon.
    pose proof (main_after_launch w w1 instance t1 Hlaunch) as Hmain.
    rewrite Hmon in Hmain.
    split.
    { unfold setup_monitoring, boto3_client, try_except_ClientError, bind,
        call, logging_info, logging_warning.
      rewrite (launch_returns_connected w w1 instance t1 Hlaunch), Hmon.
      reflexivity. }
    split; [exact Hmain |].
    split; [rewrite Hmain; reflexivity |].
    intros w' w1' w2' t1' Hlaunch' Hmon'.
    pose proof (main_after_launch w' w1' instance t1' Hlaunch') as Hmain'.
    rewrite Hmon' in Hmain'.
    rewrite Hmain, Hmain'. split; [reflexivity |].
    unfold events_of; cbn [snd].
    eexists (START_RECORD :: t1 ++ [_; _]).
    eexists (START_RECORD :: t1' ++ [_; _]).
    split; cbn [app]; rewrite <- app_assoc; reflexivity.
  - intros w w1 w2 instance t1 x Hlaunch Hmon Hother.
    rewrite (main_after_launch w w1 instance t1 Hlaunch), Hmon.
    destruct x; try reflexivity.
    contradiction (Hother e). reflexivity.
  - intros w r x. unfold_program. explore;
      unfold outcome_of, events_of; cbn [fst snd];
      intros Hin; which_event Hin;
      (split; [reflexivity | eexists; reflexivity]).
Qed.

(** C9. A successful run takes its outward steps in one fixed order:
    network discovery and group resolution, instance creation, the wait
    for the running state and the reload, the monitoring attempt, a
    60-second sleep, and it closes with the endpoint report with no client
    call after the sleep.  Every run, failed ones included, takes a prefix
    of that order: a failure stops the run and nothing is undone. *)
Theorem successful_run_is_linear :
  (forall w : W,
      outcome_of (main environ w) = Returned tt ->
      exists path instance before,
        In path resolver_paths
        /\ actions_of (events_of (main environ w)) = linear_order path
        /\ events_of (main environ w)
           = before ++ settle_and_report instance
        /\ actions_of before = removelast (linear_order path))
  /\ (forall w : W,
         exists path rest,
           In path resolver_paths
           /\ actions_of (events_of (main environ w)) ++ rest
              = linear_order path).
Proof.
  split.
  - intros w. unfold_program. explore;
      unfold outcome_of, events_of; cbn [fst snd];
      intros Hret; try discriminate Hret;
      match goal with
      | |- context [Call (MonitorInstances [id ?i]) _] =>
          first
            [ linear_with [Do OpAuthorizeSecurityGroupIngress] i
            | linear_with [Do OpDescribeSecurityGroups] i
            | linear_with [Do OpAuthorizeSecurityGroupIngress;
                           Do OpDescribeSecurityGroups] i ]
      end.
  - intros w. unfold_program. explore; unfold events_of; cbn [snd];
      first
        [ exists [Do OpAuthorizeSecurityGroupIngress]; eexists;
          split; [cbn [In resolver_paths]; tauto | reflexivity]
        | exists [Do OpDescribeSecurityGroups]; eexists;
          split; [cbn [In resolver_paths]; tauto | reflexivity]
        | exists [Do OpAuthorizeSecurityGroupIngress;
                  Do OpDescribeSecurityGroups]; eexists;
          split; [cbn [In resolver_paths]; tauto | reflexivity] ].
Qed.

End Orchestrator.

(** ** Requests issued by a run *)

Section Requests.

Variable environ : string -> option string.
Context {W : Type} {client : CloudClient W}.

Lemma every_launch_request_asks_for_one (w : W) :
  Forall asks_for_one_instance (calls_of (events_of (main environ w))).
Proof.
  unfold_program. explore; unfold events_of; cbn [snd calls_of];
    repeat constructor.
Qed.

Lemma at_most_one_launch_request (w : W) :
  count_op OpCreateInstances (events_of (main environ w)) <= 1.
Proof.
  unfold_program. explore; unfold events_of; cbn [snd];
    vm_compute; lia.
Qed.

Lemma successful_run_launches_once (w : W) :
  outcome_of (main environ w) = Returned tt ->
  count_op OpCreateInstances (events_of (main environ w)) = 1.
Proof.
  unfold_program. explore; unfold outcome_of, events_of; cbn [fst snd];
    intros Hret; try discriminate Hret; reflexivity.
Qed.

Lemma every_rule_set_is_the_configured_one (w : W) :
  Forall applies_configured_rules (calls_of (events_of (main environ w)))
  /\ count_op OpAuthorizeSecurityGroupIngress (events_of (main environ w))
     <= 1.
Proof.
  unfold_program. explore; unfold events_of; cbn [snd calls_of];
    (split; [repeat constructor | vm_compute; lia]).
Qed.

End Requests.

(** ** Runs against the reference cloud *)

Module FakeFacts.
Import Fake.

Lemma poll_gives_up (attempts pending : nat) :
  attempts <= pending -> fst (poll attempts pending) = false.
Proof.
  revert pending. induction attempts as [| a IH]; intros pending Hle;
    [reflexivity |].
  destruct pending as [| p]; [lia |].
  cbn [poll]. apply IH. lia.
Qed.

Lemma stuck_instance_times_out (i_id' : string) (s : cloud)
    (i : instance_record) :
  injected OpWaitUntilRunning (faults s) = None ->
  List.find (is_instance i_id') (instances s) = Some i ->
  WAITER_MAX_ATTEMPTS <= i_pending_polls i ->
  fst (serve (WaitUntilRunning i_id') s)
  = Raised (WaiterError "Max attempts exceeded").
Proof.
  intros Hf Hfind Hstuck. unfold serve. cbn [op_of]. rewrite Hf.
  unfold wait_until_running. rewrite Hfind.
  rewrite (poll_gives_up _ _ Hstuck). reflexivity.
Qed.

Lemma duplicate_is_classified (message operation : string) :
  str_in "InvalidGroup.Duplicate"
    (str (mk_client_error "InvalidGroup.Duplicate" message operation))
  = true.
Proof. reflexivity. Qed.

Lemma polled_request (i_id' : string) (i : instance_record) :
  i_request (polled i_id' i) = i_request i.
Proof. unfold polled. destruct (is_instance i_id' i); reflexivity. Qed.

Lemma monitored_request (ids : list string) (i : instance_record) :
  i_request (monitored ids i) = i_request i.
Proof. unfold monitored. destruct (mem (i_id i) ids); reflexivity. Qed.

Lemma map_request_preserved (f : instance_record -> instance_record)
    (l : list instance_record) :
  (forall i, i_request (f i) = i_request i) ->
  List.map i_request (List.map f l) = List.map i_request l.
Proof.
  intros Hf. induction l as [| i l IH]; cbn [List.map];
    [reflexivity | rewrite Hf, IH; reflexivity].
Qed.

(** Each call adds to the cloud exactly the instances it answers with. *)
Lemma serve_launch_requests (c : api_call) (s s' : cloud)
    (o : outcome (response c)) :
  serve c s = (o, s') ->
  launch_requests s' = (launch_requests s ++ launched c o)%list.
Proof.
  unfold serve, launch_requests.
  destruct (injected (op_of c) (faults s)) as [x |].
  - intros H; inversion H; subst.
    destruct c; cbn [launched]; rewrite app_nil_r; reflexivity.
  - destruct c; cbn [launched]; try rewrite app_nil_r.
    + intros H; inversion H; reflexivity.
    + unfold create_group.
      destruct (negb _); [intros H; inversion H; reflexivity |].
      destruct (List.existsb _ _); [intros H; inversion H; reflexivity |].
      destruct (group_ids s); intros H; inversion H; reflexivity.
    + unfold authorize.
      destruct (List.existsb _ _); intros H; inversion H; reflexivity.
    + unfold lookup_groups. intros H; inversion H; reflexivity.
    + unfold run_instances.
      destruct (negb _);
        [intros H; inversion H; subst; rewrite app_nil_r; reflexivity |].
      destruct (_ || _)%bool;
        [intros H; inversion H; subst; rewrite app_nil_r; reflexivity |].
      destruct (_ <? _)%Z;
        intros H; inversion H; subst;
        [rewrite app_nil_r; reflexivity |].
      cbn [instances]. rewrite List.map_app, !List.map_map. reflexivity.
    + unfold wait_until_running.
      destruct (List.find _ _); [| intros H; inversion H; reflexivity].
      destruct (fst _); intros H; inversion H; subst; cbn [instances
        with_instances];
        apply map_request_preserved; intros; apply polled_request.
    + unfold reload.
      destruct (List.find _ _); intros H; inversion H; reflexivity.
    + unfold monitor.
      destruct (List.forallb _ _); intros H; inversion H; subst;
        [| reflexivity].
      cbn [instances with_instances].
      apply map_request_preserved; intros; apply monitored_request.
Qed.

(** A launch answers with no more instances than the request allows. *)
Lemma serve_launch_bound (r : run_request) (s s' : cloud)
    (l : list Instance) :
  serve (CreateInstances r) s = (Returned l, s') ->
  List.length l <= Z.to_nat (MaxCount r).
Proof.
  unfold serve.
  destruct (injected _ _); [intros H; discriminate H |].
  unfold run_instances.
  destruct (negb _); [intros H; discriminate H |].
  destruct (_ || _)%bool; [intros H; discriminate H |].
  destruct (_ <? _)%Z; intros H; inversion H; subst.
  rewrite List.length_map. apply List.firstn_le_length.
Qed.

End FakeFacts.

(** Turn the answers of the reference cloud met along a path into what they
    did to the launch requests, and rewrite the goal with them. *)
Ltac account_for_launches :=
  repeat match goal with
         | H : invoke (CreateInstances _) _ = (Returned (_ :: ?rest), _) |- _ =>
             is_var rest;
             let B := fresh "B" in
             pose proof (FakeFacts.serve_launch_bound _ _ _ _ H) as B;
             destruct rest; [clear B | cbn in B; lia]
         end;
  repeat match goal with
         | H : invoke _ _ = _ |- _ =>
             apply FakeFacts.serve_launch_requests in H; cbn [launched] in H
         end;
  repeat match goal with
         | H : launch_requests _ = _ |- _ => rewrite H; clear H
         end;
  rewrite ?app_nil_r.

Section ExactlyOne.

Variable environ : string -> option string.

Lemma successful_run_adds_one_instance (s : Fake.cloud) :
  outcome_of (main environ s) = Returned tt ->
  exists g,
    launch_requests (final_of (main environ s))
    = launch_requests s ++ [instance_request environ g].
Proof.
  unfold_program. explore; unfold outcome_of, final_of; cbn [fst snd];
    intros Hret; try discriminate Hret;
    eexists; account_for_launches; reflexivity.
Qed.

Lemma tagged_instances_count (name : string) (s : Fake.cloud) :
  List.length (Fake.instances_tagged name s)
  = List.length (List.filter (Fake.request_tagged name) (launch_requests s)).
Proof.
  unfold Fake.instances_tagged, launch_requests, Fake.tagged.
  induction (Fake.instances s) as [| i l IH]; cbn [List.filter List.map];
    [reflexivity |].
  destruct (Fake.request_tagged name (Fake.i_request i)); cbn [List.length];
    rewrite IH; reflexivity.
Qed.

(** C2. Every instance-creation request of a run asks for exactly one
    instance (MinCount = MaxCount = 1) tagged with the configured name, and
    a run issues at most one such request, exactly one when it succeeds.
    Against the reference cloud a successful run adds exactly one instance
    resource, launched from that request, so exactly one more instance
    carries the configured name tag. *)
Theorem exactly_one_instance_is_requested :
  (forall (W : Type) (client : CloudClient W) (w : W),
      Forall asks_for_one_instance (calls_of (events_of (main environ w)))
      /\ count_op OpCreateInstances (events_of (main environ w)) <= 1
      /\ (outcome_of (main environ w) = Returned tt ->
          count_op OpCreateInstances (events_of (main environ w)) = 1))
  /\ (forall s : Fake.cloud,
         outcome_of (main environ s) = Returned tt ->
         (exists g,
             launch_requests (final_of (main environ s))
             = launch_requests s ++ [instance_request environ g])
         /\ List.length
              (Fake.instances_tagged EC2_TAG_NAME (final_of (main environ s)))
            = S (List.length (Fake.instances_tagged EC2_TAG_NAME s))).
Proof.
  split.
  - intros W client w.
    split; [apply every_launch_request_asks_for_one |].
    split; [apply at_most_one_launch_request |].
    apply successful_run_launches_once.
  - intros s Hret.
    destruct (successful_run_adds_one_instance s Hret) as [g Hg].
    split; [exists g; exact Hg |].
    rewrite !tagged_instances_count, Hg, List.filter_app, List.length_app.
    cbn. lia.
Qed.

End ExactlyOne.

(** ** Idempotency of the resolver against the reference cloud *)

Module Idempotency.
Import Fake.



(** No group of a list carries the name when none carries it in the
    network and the name is confined to the network. *)
Lemma confined_and_absent (name vpc_id : string)
    (f : security_group -> security_group) (l : list security_group) :
  (forall g, sg_GroupName (f g) = sg_GroupName g) ->
  List.existsb (fun g => named name g && in_network vpc_id g) l = false ->
  List.forallb (fun g => implb (named name g) (in_network vpc_id g)) l
    = true ->
  List.filter (named name) (List.map f l) = [].
Proof.
  intros Hf. induction l as [| g l IH]; [reflexivity |].
  cbn [List.existsb List.forallb List.map List.filter].
  intros Hex Hall.
  apply orb_false_iff in Hex. destruct Hex as [Hg Hex].
  apply andb_true_iff in Hall. destruct Hall as [Hg' Hall].
  unfold named at 1. rewrite Hf. fold (named name g).
  destruct (named name g); [| apply IH; assumption].
  cbn in Hg, Hg'. congruence.
Qed.



Lemma lookup_one_name (name : string) (l : list security_group) :
  List.filter (fun g => mem (sg_GroupName g) [name]) l
  = List.filter (named name) l.
Proof.
  apply List.filter_ext. intros g. unfold mem, named.
  cbn [List.existsb]. apply orb_false_r.
Qed.



End Idempotency.

(** A cloud without injected faults that rejects the creation as a duplicate
    holds a group of that name, and the resolver returns the first of them
    and leaves the cloud as it is. *)
Lemma duplicate_in_cloud (vpc_id : string) (s : Fake.cloud) :
  Fake.faults s = [] ->
  Fake.mem vpc_id (Fake.networks s) = true ->
  List.existsb
    (fun g => Fake.named EC2_SECURITY_GROUP_NAME g
              && Fake.in_network vpc_id g)
    (Fake.groups s) = true ->
  exists sg rest e,
    Fake.groups_named EC2_SECURITY_GROUP_NAME s = sg :: rest
    /\ create_security_group vpc_id s
       = (Returned (sg_GroupId sg), s,
          [Call (create_group_call vpc_id) (Some (ClientError e));
           Call lookup_call None]).
Proof.
  intros Hf Hnet Hex.
  set (e := mk_client_error "InvalidGroup.Duplicate"
              ("The security group '" ++ EC2_SECURITY_GROUP_NAME
                 ++ "' already exists for VPC '" ++ vpc_id ++ "'")
              "CreateSecurityGroup").
  assert (Hcreate : invoke (create_group_call vpc_id) s
                    = (Raised (ClientError e), s)).
  { cbn [invoke Fake.client]. unfold Fake.serve, create_group_call.
    rewrite Hf. cbn [Fake.injected op_of]. unfold Fake.create_group.
    rewrite Hnet, Hex. reflexivity. }
  assert (Hsome : Fake.groups_named EC2_SECURITY_GROUP_NAME s <> []).
  { unfold Fake.groups_named. revert Hex.
    induction (Fake.groups s) as [| g l IH]; cbn [List.existsb List.filter];
      [intros H; discriminate H |].
    destruct (Fake.named EC2_SECURITY_GROUP_NAME g);
      [intros _ H; discriminate H | exact IH]. }
  destruct (Fake.groups_named EC2_SECURITY_GROUP_NAME s) as [| sg rest] eqn:Hn;
    [contradiction Hsome; reflexivity |].
  exists sg, rest, e. split; [reflexivity |].
  rewrite (resolver_duplicate_run vpc_id s s e Hcreate
             (FakeFacts.duplicate_is_classified _ _)).
  cbn [invoke Fake.client]. unfold Fake.serve, lookup_call.
  rewrite Hf. cbn [Fake.injected op_of]. unfold Fake.lookup_groups.
  rewrite Idempotency.lookup_one_name.
  fold (Fake.groups_named EC2_SECURITY_GROUP_NAME s). rewrite Hn.
  reflexivity.
Qed.

(** The first group carrying the name is a group of the cloud; it lies in
    the given network when the name is confined to it. *)
Lemma first_named_is_confined (vpc_id : string) (s : Fake.cloud)
    (sg : security_group) (rest : list security_group) :
  Fake.groups_named EC2_SECURITY_GROUP_NAME s = sg :: rest ->
  In sg (Fake.groups s)
  /\ sg_GroupName sg = EC2_SECURITY_GROUP_NAME
  /\ (name_confined_to EC2_SECURITY_GROUP_NAME vpc_id s = true ->
      sg_VpcId sg = vpc_id).
Proof.
  intros Hn.
  assert (Hin : In sg (Fake.groups_named EC2_SECURITY_GROUP_NAME s))
    by (rewrite Hn; left; reflexivity).
  unfold Fake.groups_named in Hin. apply List.filter_In in Hin.
  destruct Hin as [Hin Hnamed].
  split; [exact Hin |]. split.
  - apply String.eqb_eq. exact Hnamed.
  - unfold name_confined_to. intros Hconf.
    rewrite List.forallb_forall in Hconf. specialize (Hconf sg Hin).
    rewrite Hnamed in Hconf. apply String.eqb_eq. exact Hconf.
Qed.

(** C3, as amended. When the creation call is rejected with a client
    error classified as a duplicate name, the resolver issues exactly one
    lookup-by-name query after it, applies no ingress rule and logs no
    error.  What it yields is decided by the lookup: the identifier of the
    first group of the answer, returned normally; the lookup's own exception
    when the lookup fails; [IndexError] when the answer is empty.  In the
    reference cloud without injected faults, a creation rejected because the
    name is taken ends with the identifier of the first group carrying the
    name, the cloud untouched; that group lies in the given network when the
    name is confined to it. *)
Theorem duplicate_group_is_looked_up_once :
  (forall (W : Type) (client : CloudClient W) (vpc_id : string) (w w1 : W)
          (e : client_error),
      invoke (create_group_call vpc_id) w = (Raised (ClientError e), w1) ->
      str_in "InvalidGroup.Duplicate" (str e) = true ->
      calls_of (events_of (create_security_group vpc_id w))
        = [create_group_call vpc_id; lookup_call]
      /\ count_op OpDescribeSecurityGroups
           (events_of (create_security_group vpc_id w)) = 1
      /\ count_op OpAuthorizeSecurityGroupIngress
           (events_of (create_security_group vpc_id w)) = 0
      /\ logged ERROR (events_of (create_security_group vpc_id w)) = []
      /\ (forall sg rest w2,
             invoke lookup_call w1 = (Returned (sg :: rest), w2) ->
             create_security_group vpc_id w
             = (Returned (sg_GroupId sg), w2,
                [Call (create_group_call vpc_id) (Some (ClientError e));
                 Call lookup_call None]))
      /\ (forall x w2,
             invoke lookup_call w1 = (Raised x, w2) ->
             create_security_group vpc_id w
             = (Raised x, w2,
                [Call (create_group_call vpc_id) (Some (ClientError e));
                 Call lookup_call (Some x)]))
      /\ (forall w2,
             invoke lookup_call w1 = (Returned [], w2) ->
             create_security_group vpc_id w
             = (Raised IndexError, w2,
                [Call (create_group_call vpc_id) (Some (ClientError e));
                 Call lookup_call None])))
  /\ (forall (vpc_id : string) (s : Fake.cloud),
         Fake.faults s = [] ->
         Fake.mem vpc_id (Fake.networks s) = true ->
         List.existsb
           (fun g => Fake.named EC2_SECURITY_GROUP_NAME g
                     && Fake.in_network vpc_id g)
           (Fake.groups s) = true ->
         exists sg rest e,
           Fake.groups_named EC2_SECURITY_GROUP_NAME s = sg :: rest
           /\ create_security_group vpc_id s
              = (Returned (sg_GroupId sg), s,
                 [Call (create_group_call vpc_id) (Some (ClientError e));
                  Call lookup_call None])
           /\ In sg (Fake.groups s)
           /\ sg_GroupName sg = EC2_SECURITY_GROUP_NAME
           /\ (name_confined_to EC2_SECURITY_GROUP_NAME vpc_id s = true ->
               sg_VpcId sg = vpc_id)).
Proof.
  split.
  - intros W client vpc_id w w1 e Hcreate Hdup.
    rewrite (resolver_duplicate_run vpc_id w w1 e Hcreate Hdup).
    destruct (invoke lookup_call w1) as [[[|sg rest] | x] w2];
      repeat split; try reflexivity; intros;
      match goal with
      | H : _ = _ |- _ => inversion H; reflexivity
      end.
  - intros vpc_id s Hf Hnet Hex.
    destruct (duplicate_in_cloud vpc_id s Hf Hnet Hex)
      as (sg & rest & e & Hn & Hrun).
    exists sg, rest, e. split; [exact Hn |]. split; [exact Hrun |].
    exact (first_named_is_confined vpc_id s sg rest Hn).
Qed.

(** C7. When the wait for the running state times out, the waiter's
    error is not caught: the run ends with that [WaiterError] (exit
    status 1), the failed wait is its last event, so no monitoring call,
    no settle wait and no report follow, and no ERROR record is logged.
    A rejected creation ends differently: an ERROR record and
    [SystemExit(1)].  In the reference cloud the wait times out exactly
    this way when the instance stays pending for the waiter's 40 polls. *)
Theorem running_timeout_is_fatal_and_distinct :
  (forall (environ : string -> option string) (W : Type)
          (client : CloudClient W) (w : W) (i : string) (reason : string),
      In (Call (WaitUntilRunning i) (Some (WaiterError reason)))
         (events_of (main environ w)) ->
      outcome_of (main environ w) = Raised (WaiterError reason)
      /\ exit_status (outcome_of (main environ w)) = 1%Z
      /\ (exists before,
             events_of (main environ w)
               = before
                   ++ [Call (WaitUntilRunning i) (Some (WaiterError reason))])
      /\ count_op OpMonitorInstances (events_of (main environ w)) = 0
      /\ ~ In (Wait 60) (actions_of (events_of (main environ w)))
      /\ logged ERROR (events_of (main environ w)) = [])
  /\ (forall (environ : string -> option string) (W : Type)
             (client : CloudClient W) (w : W) (r : run_request)
             (e : client_error),
         In (Call (CreateInstances r) (Some (ClientError e)))
            (events_of (main environ w)) ->
         outcome_of (main environ w) = Raised (SystemExit 1)
         /\ logged ERROR (events_of (main environ w))
            = [("Error launching EC2 instance: " ++ str e)%string])
  /\ (forall (i : string) (s : Fake.cloud) (record : Fake.instance_record),
         Fake.injected OpWaitUntilRunning (Fake.faults s) = None ->
         List.find (Fake.is_instance i) (Fake.instances s) = Some record ->
         Fake.WAITER_MAX_ATTEMPTS <= Fake.i_pending_polls record ->
         fst (invoke (WaitUntilRunning i) s)
         = Raised (WaiterError "Max attempts exceeded")).
Proof.
  split; [| split].
  - intros environ W client w i reason. unfold_program. explore;
      unfold outcome_of, events_of; cbn [fst snd];
      intros Hin; which_event Hin;
      inversion Hin; subst;
      (split; [reflexivity |]);
      (split; [reflexivity |]);
      (split; [match goal with
               | |- exists before, ?t = _ =>
                   exists (removelast t); reflexivity
               end |]);
      (split; [reflexivity |]);
      (split; [| reflexivity]);
      cbn [actions_of In]; intros Hw;
      repeat match goal with
             | H : _ \/ _ |- _ => destruct H
             end;
      try discriminate; try contradiction.
  - intros environ W client w r e. unfold_program. explore;
      unfold outcome_of, events_of; cbn [fst snd];
      intros Hin; which_event Hin;
      inversion Hin; subst; split; reflexivity.
  - intros i s record. apply FakeFacts.stuck_instance_times_out.
Qed.


(** C6. The rule set the resolver applies admits inbound TCP on ports 22
    and 80 from 0.0.0.0/0 and nothing else; every rule-setting call of a run
    carries exactly that set and a run makes at most one; after a successful
    creation the call targets the identifier just returned; in the reference
    cloud the new group then holds exactly these rules. *)
Theorem new_group_gets_exactly_the_configured_rules :
  (forall (protocol : string) (port : Z) (cidr : string),
      permits INGRESS_RULES protocol port cidr = true
      <-> protocol = "tcp" /\ cidr = "0.0.0.0/0"
          /\ (port = 22 \/ port = 80)%Z)
  /\ (forall (environ : string -> option string) (W : Type)
             (client : CloudClient W) (w : W),
         Forall applies_configured_rules
                (calls_of (events_of (main environ w)))
         /\ count_op OpAuthorizeSecurityGroupIngress
              (events_of (main environ w)) <= 1)
  /\ (forall (W : Type) (client : CloudClient W) (vpc_id : string)
             (w w1 : W) (r : create_group_response),
         invoke (create_group_call vpc_id) w = (Returned r, w1) ->
         calls_of (events_of (create_security_group vpc_id w))
         = create_group_call vpc_id
             :: AuthorizeSecurityGroupIngress (GroupId r) INGRESS_RULES
             :: List.skipn 2
                  (calls_of (events_of (create_security_group vpc_id w))))
  /\ (forall (vpc_id : string) (s s1 s2 : Fake.cloud)
             (r : create_group_response),
         invoke (create_group_call vpc_id) s = (Returned r, s1) ->
         invoke (AuthorizeSecurityGroupIngress (GroupId r) INGRESS_RULES) s1
           = (Returned tt, s2) ->
         outcome_of (create_security_group vpc_id s) = Returned (GroupId r)
         /\ final_of (create_security_group vpc_id s) = s2
         /\ In (mk_security_group (GroupId r) EC2_SECURITY_GROUP_NAME vpc_id
                                  INGRESS_RULES)
               (Fake.groups s2)).
Proof.
  split; [| split; [| split]].
  - intros protocol port cidr. unfold permits, INGRESS_RULES.
    cbn [List.existsb IpProtocol FromPort ToPort IpRanges].
    rewrite !orb_false_r, orb_true_iff, !andb_true_iff, !String.eqb_eq,
      !Z.leb_le.
    split.
    + intros [[[[Hp H1] H2] Hc] | [[[Hp H1] H2] Hc]]; subst;
        repeat split; lia.
    + intros (Hp & Hc & [Hport | Hport]); subst; [left | right];
        repeat split; lia.
  - intros environ W client w. apply every_rule_set_is_the_configured_one.
  - intros W client vpc_id w w1 r Hcreate. unfold_program.
    answer Hcreate. explore; reflexivity.
  - intros vpc_id s s1 s2 r Hcreate Hauth.
    rewrite (resolver_created_run vpc_id s s1 s2 r Hcreate Hauth).
    split; [reflexivity |]. split; [reflexivity |].
    revert Hcreate Hauth. cbn [invoke Fake.client].
    unfold Fake.serve, create_group_call.
    destruct (Fake.injected _ (Fake.faults s)); [intros H; discriminate H |].
    unfold Fake.create_group, Fake.rejected.
    destruct (negb _); [intros H; discriminate H |].
    destruct (List.existsb _ _); [intros H; discriminate H |].
    destruct (Fake.group_ids s) as [| g_id rest]; [intros H; discriminate H |].
    intros H; inversion H; subst; clear H. cbn [GroupId Fake.faults].
    destruct (Fake.injected _ _); [intros H; discriminate H |].
    unfold Fake.authorize. cbn [Fake.groups].
    destruct (List.existsb _ _); [| intros H; discriminate H].
    intros H; inversion H; subst; clear H. cbn [Fake.groups].
    rewrite List.map_app. apply List.in_or_app. right.
    cbn [List.map In]. left.
    unfold Fake.add_rules, Fake.has_id. cbn [sg_GroupId].
    rewrite String.eqb_refl. reflexivity.
Qed.

(** C5, as amended. [main] returns no value: a successful run reports the
    deployment through its log.  Its events are exactly: the start record,
    network discovery, the resolver's events, the instance request, the
    launch record naming the first instance of the answer, the wait, the
    reload, the running record with the address the reload answered, the
    monitoring call followed by an INFO record when it returned and by a
    WARNING record quoting the error when it was rejected, then the settle
    wait and the endpoint report with that same address.  In the end-to-end
    scenario the log names i-001 and 203.0.113.5 and records monitoring as
    enabled, the cloud ends with that one monitored instance, and the run
    issues exactly one group-creation call, for the configured name
    "langraph-web-sg". *)
Theorem deployment_is_reported_through_the_log :
  (forall (environ : string -> option string) (W : Type)
          (client : CloudClient W) (w : W),
      outcome_of (main environ w) = Returned tt ->
      exists (v : vpc) (vs : list vpc) (w0 : W)
             (g : string) (w1 : W) (tg : list event)
             (i : Instance) (others : list Instance) (w2 w3 w4 w5 : W)
             (address : option string) (monitoring : list event),
        invoke DescribeVpcs w = (Returned (v :: vs), w0)
        /\ create_security_group (VpcId v) w0 = (Returned g, w1, tg)
        /\ invoke (CreateInstances (instance_request environ g)) w1
           = (Returned (i :: others), w2)
        /\ invoke (WaitUntilRunning (id i)) w2 = (Returned tt, w3)
        /\ invoke (Reload (id i)) w3 = (Returned address, w4)
        /\ ((invoke (MonitorInstances [id i]) w4 = (Returned tt, w5)
             /\ monitoring
                = [Call (MonitorInstances [id i]) None;
                   Log INFO ("Enabled detailed monitoring for instance "
                               ++ id i)])
            \/ (exists e,
                   invoke (MonitorInstances [id i]) w4
                   = (Raised (ClientError e), w5)
                   /\ monitoring
                      = [Call (MonitorInstances [id i])
                              (Some (ClientError e));
                         Log WARNING
                             ("Could not enable monitoring: " ++ str e)]))
        /\ main environ w
           = (Returned tt, w5,
              START_RECORD :: Call DescribeVpcs None :: tg
                ++ [Call (CreateInstances (instance_request environ g)) None;
                    Log INFO ("Launching EC2 instance " ++ id i ++ "...");
                    Call (WaitUntilRunning (id i)) None;
                    Call (Reload (id i)) None;
                    Log INFO ("EC2 instance is running at "
                                ++ str_opt address)]
                ++ monitoring
                ++ [Log INFO "Waiting for web server to start...";
                    Sleep 60;
                    Log INFO ("Website should be available at: http://"
                                ++ str_opt address ++ "/");
                    Log INFO ("AI-powered features available at: http://"
                                ++ str_opt address
                                ++ "/ai (POST JSON: {'text': 'your input'})");
                    Log INFO "Deployment complete. Monitor instance in AWS Console for resource usage and uptime."]))
  /\ (let run := main Fake.scenario_environ Fake.scenario_cloud in
      outcome_of run = Returned tt
      /\ logged INFO (events_of run)
         = [ "Starting Langraph website deployment on AWS EC2...";
             "Created security group langraph-web-sg with ID sg-001";
             "Configured security group ingress rules.";
             "Launching EC2 instance i-001...";
             "EC2 instance is running at 203.0.113.5";
             "Enabled detailed monitoring for instance i-001";
             "Waiting for web server to start...";
             "Website should be available at: http://203.0.113.5/";
             "AI-powered features available at: http://203.0.113.5/ai (POST JSON: {'text': 'your input'})";
             "Deployment complete. Monitor instance in AWS Console for resource usage and uptime." ]
      /\ logged WARNING (events_of run) = []
      /\ logged ERROR (events_of run) = []
      /\ group_creations EC2_SECURITY_GROUP_NAME (events_of run) = 1
      /\ count_op OpCreateSecurityGroup (events_of run) = 1
      /\ List.map (fun i => (Fake.i_id i, Fake.i_address i, Fake.i_monitoring i))
                  (Fake.instances (final_of run))
         = [("i-001", Some "203.0.113.5", true)]).
Proof.
  split.
  - intros environ W client w. unfold_orchestrator.
    handles_built; [intros H; discriminate H |].
    next_answer; try (intros H; discriminate H).
    match goal with
    | |- context [match ?l with [] => _ | _ :: _ => _ end] =>
        destruct l as [| v vs]; [intros H; discriminate H |]
    end.
    cbn [failure_of app fst snd].
    destruct (create_security_group (VpcId v) w0) as [[[g | x] w1] tg] eqn:Hres;
      cbn [app]; [| intros H; discriminate H].
    explore; unfold outcome_of; cbn [fst snd];
      intros Hret; try discriminate Hret;
      exists v, vs, w0, g, w1, tg;
      do 8 eexists;
      (split; [reflexivity |]);
      (split; [exact Hres |]);
      (split; [eassumption |]);
      (split; [eassumption |]);
      (split; [eassumption |]);
      (split;
       [first [ left; split; [eassumption | reflexivity]
              | right; eexists; split; [eassumption | reflexivity] ] |]);
      cbn [app]; rewrite <- ?List.app_assoc; reflexivity.
  - vm_compute. repeat split.
Qed.

(** ** Concrete runs *)



(** C5, counterexample. In the end-to-end scenario no group-creation call
    names "web-sg": the group name is the constant "langraph-web-sg". *)
Lemma no_creation_call_names_web_sg :
  group_creations "web-sg"
    (events_of (main Fake.scenario_environ Fake.scenario_cloud)) <> 1.
Proof. vm_compute. discriminate. Qed.

Lemma scenario_run_is_reported :
  exists g tg i address monitoring,
    events_of (main Fake.scenario_environ Fake.scenario_cloud)
    = START_RECORD :: Call DescribeVpcs None :: tg
        ++ [Call (CreateInstances (instance_request Fake.scenario_environ g))
                 None;
            Log INFO ("Launching EC2 instance " ++ id i ++ "...");
            Call (WaitUntilRunning (id i)) None;
            Call (Reload (id i)) None;
            Log INFO ("EC2 instance is running at " ++ str_opt address)]
        ++ monitoring
        ++ settle_and_report {| id := id i; public_ip_address := address |}.
Proof.
  destruct deployment_is_reported_through_the_log as [H _].
  destruct (H Fake.scenario_environ Fake.cloud Fake.client Fake.scenario_cloud)
    as (v & vs & w0 & g & w1 & tg & i & others & w2 & w3 & w4 & w5
        & address & monitoring & _ & _ & _ & _ & _ & _ & Hmain).
  - vm_compute. reflexivity.
  - exists g, tg, i, address, monitoring. rewrite Hmain. reflexivity.
Defined.

Lemma scenario_run_adds_one_tagged_instance :
  List.length
    (Fake.instances_tagged EC2_TAG_NAME
       (final_of (main Fake.scenario_environ Fake.scenario_cloud)))
  = 1.
Proof.
  destruct (exactly_one_instance_is_requested Fake.scenario_environ)
    as [_ H].
  destruct (H Fake.scenario_cloud) as [_ Hcount].
  - vm_compute. reflexivity.
  - exact Hcount.
Defined.

Lemma existing_group_is_returned :
  create_security_group "vpc-1" Inputs.existing_group_cloud
  = (Returned "sg-existing", Inputs.existing_group_cloud,
     [Call (create_group_call "vpc-1")
           (Some (ClientError
                    (mk_client_error "InvalidGroup.Duplicate"
                       "The security group 'langraph-web-sg' already exists for VPC 'vpc-1'"
                       "CreateSecurityGroup")));
      Call lookup_call None]).
Proof.
  destruct duplicate_group_is_looked_up_once as [Hany _].
  destruct (Hany Fake.cloud Fake.client
              "vpc-1" Inputs.existing_group_cloud Inputs.existing_group_cloud
              (mk_client_error "InvalidGroup.Duplicate"
                 "The security group 'langraph-web-sg' already exists for VPC 'vpc-1'"
                 "CreateSecurityGroup"))
    as (_ & _ & _ & _ & H & _).
  - vm_compute. reflexivity.
  - vm_compute. reflexivity.
  - apply (H (mk_security_group "sg-existing" EC2_SECURITY_GROUP_NAME
                                "vpc-1" []) []).
    vm_compute. reflexivity.
Defined.

(** C3, counterexample. The group exists and the creation is rejected as
    a duplicate, but the lookup is rejected in its turn (throttling): the
    resolver raises the lookup's error and returns no identifier.  And where
    the name is taken in another network as well, the identifier returned for
    "vpc-A" is that of the group of "vpc-B", not of the group that made the
    creation a duplicate. *)
Lemma duplicate_group_is_not_always_returned :
  create_security_group "vpc-1" MoreInputs.unreadable_group_cloud
  = (Raised (ClientError
               (mk_client_error "RequestLimitExceeded"
                  "Request limit exceeded." "DescribeSecurityGroups")),
     MoreInputs.unreadable_group_cloud,
     [Call (create_group_call "vpc-1")
           (Some (ClientError
                    (mk_client_error "InvalidGroup.Duplicate"
                       "The security group 'langraph-web-sg' already exists for VPC 'vpc-1'"
                       "CreateSecurityGroup")));
      Call lookup_call
           (Some (ClientError
                    (mk_client_error "RequestLimitExceeded"
                       "Request limit exceeded."
                       "DescribeSecurityGroups")))])
  /\ Fake.groups (final_of (create_security_group "vpc-A"
                              Inputs.two_network_cloud))
     = [mk_security_group "sg-B" EC2_SECURITY_GROUP_NAME "vpc-B" [];
        mk_security_group "sg-001" EC2_SECURITY_GROUP_NAME "vpc-A"
                          INGRESS_RULES]
  /\ create_security_group "vpc-A"
       (final_of (create_security_group "vpc-A" Inputs.two_network_cloud))
     = (Returned "sg-B",
        final_of (create_security_group "vpc-A" Inputs.two_network_cloud),
        [Call (create_group_call "vpc-A")
              (Some (ClientError
                       (mk_client_error "InvalidGroup.Duplicate"
                          "The security group 'langraph-web-sg' already exists for VPC 'vpc-A'"
                          "CreateSecurityGroup")));
         Call lookup_call None]).
Proof.
  split; [vm_compute; reflexivity |].
  split; vm_compute; reflexivity.
Qed.

Lemma rejected_monitoring_run_completes :
  outcome_of
    (main Fake.scenario_environ
       (Inputs.failing OpMonitorInstances "UnauthorizedOperation"))
  = Returned tt
  /\ exit_status
       (outcome_of
          (main Fake.scenario_environ
             (Inputs.failing OpMonitorInstances "UnauthorizedOperation")))
     = 0%Z.
Proof.
  destruct (monitoring_failure_is_not_fatal Fake.scenario_environ
              (W := Fake.cloud)) as [H _].
  destruct (H (Inputs.failing OpMonitorInstances "UnauthorizedOperation")
              (final_of
                 (launch_ec2_instance Fake.scenario_environ
                    (Inputs.failing OpMonitorInstances
                                    "UnauthorizedOperation")))
              (final_of
                 (launch_ec2_instance Fake.scenario_environ
                    (Inputs.failing OpMonitorInstances
                                    "UnauthorizedOperation")))
              (mk_Instance "i-001" (Some "203.0.113.5"))
              (events_of
                 (launch_ec2_instance Fake.scenario_environ
                    (Inputs.failing OpMonitorInstances
                                    "UnauthorizedOperation")))
              (mk_client_error "UnauthorizedOperation" "rejected" "op"))
    as (_ & Hmain & Hexit & _).
  - vm_compute. reflexivity.
  - vm_compute. reflexivity.
  - rewrite Hmain. split; reflexivity.
Defined.

(** C4, counterexample. The monitoring call fails with an exception that
    is no client error (the connection is lost): no warning is logged and the
    run ends with that exception right after the call, with exit status 1 and
    without the settle wait and the report, whereas the run in which
    monitoring succeeds returns. *)
Lemma lost_connection_in_monitoring_aborts_the_run :
  main Fake.scenario_environ
    (MoreInputs.raising OpMonitorInstances (OtherError "connection lost"))
  = (Raised (OtherError "connection lost"),
     final_of
       (launch_ec2_instance Fake.scenario_environ
          (MoreInputs.raising OpMonitorInstances
                              (OtherError "connection lost"))),
     START_RECORD
       :: events_of
            (launch_ec2_instance Fake.scenario_environ
               (MoreInputs.raising OpMonitorInstances
                                   (OtherError "connection lost")))
       ++ [Call (MonitorInstances ["i-001"])
                (Some (OtherError "connection lost"))])
  /\ exit_status
       (outcome_of
          (main Fake.scenario_environ
             (MoreInputs.raising OpMonitorInstances
                                 (OtherError "connection lost"))))
     = 1%Z
  /\ logged WARNING
       (events_of
          (main Fake.scenario_environ
             (MoreInputs.raising OpMonitorInstances
                                 (OtherError "connection lost"))))
     = []
  /\ ~ In (Wait 60)
          (actions_of
             (events_of
                (main Fake.scenario_environ
                   (MoreInputs.raising OpMonitorInstances
                                       (OtherError "connection lost")))))
  /\ outcome_of (main Fake.scenario_environ Fake.scenario_cloud)
     = Returned tt.
Proof.
  split; [vm_compute; reflexivity |].
  split; [vm_compute; reflexivity |].
  split; [vm_compute; reflexivity |].
  split; [| vm_compute; reflexivity].
  vm_compute. intros H.
  repeat match type of H with
         | _ \/ _ => destruct H as [H | H]
         end;
    discriminate H || contradiction H.
Qed.

Lemma stuck_instance_run_times_out :
  outcome_of (main Fake.scenario_environ Inputs.stuck_cloud)
  = Raised (WaiterError "Max attempts exceeded").
Proof.
  destruct running_timeout_is_fatal_and_distinct as [H _].
  destruct (H Fake.scenario_environ Fake.cloud Fake.client
              Inputs.stuck_cloud "i-001" "Max attempts exceeded")
    as [Hout _].
  - vm_compute. do 8 right. left. reflexivity.
  - exact Hout.
Defined.

Lemma exhausted_cloud_run_exits :
  exit_status (outcome_of (main Fake.scenario_environ Inputs.exhausted_cloud))
  = 1%Z.
Proof.
  destruct (other_group_failure_is_fatal Fake.scenario_environ
              Inputs.exhausted_cloud Inputs.exhausted_cloud
              Inputs.exhausted_cloud (mk_vpc "vpc-1") [])
    as [Hclient _].
  - vm_compute. reflexivity.
  - vm_compute. reflexivity.
  - destruct (Hclient
                (mk_client_error "SecurityGroupLimitExceeded"
                   "The maximum number of security groups has been reached"
                   "CreateSecurityGroup"))
      as (_ & _ & Hexit & _).
    + vm_compute. reflexivity.
    + vm_compute. reflexivity.
    + exact Hexit.
Defined.

(** C8, counterexample. The creation call fails with an exception that is
    no client error (the connection is lost): the resolver logs nothing and
    does not call [sys.exit]; the exception leaves it as it is and ends the
    run without any ERROR record. *)
Lemma lost_connection_in_creation_is_not_logged :
  create_security_group "vpc-1"
    (MoreInputs.raising OpCreateSecurityGroup (OtherError "connection lost"))
  = (Raised (OtherError "connection lost"),
     MoreInputs.raising OpCreateSecurityGroup (OtherError "connection lost"),
     [Call (create_group_call "vpc-1") (Some (OtherError "connection lost"))])
  /\ main Fake.scenario_environ
       (MoreInputs.raising OpCreateSecurityGroup
                           (OtherError "connection lost"))
     = (Raised (OtherError "connection lost"),
        MoreInputs.raising OpCreateSecurityGroup
                           (OtherError "connection lost"),
        [START_RECORD; Call DescribeVpcs None;
         Call (create_group_call "vpc-1")
              (Some (OtherError "connection lost"))])
  /\ logged ERROR
       (events_of
          (main Fake.scenario_environ
             (MoreInputs.raising OpCreateSecurityGroup
                                 (OtherError "connection lost"))))
     = [].
Proof.
  split; [vm_compute; reflexivity |].
  split; vm_compute; reflexivity.
Qed.

Lemma scenario_run_is_linear :
  exists path instance before,
    In path resolver_paths
    /\ actions_of (events_of (main Fake.scenario_environ Fake.scenario_cloud))
       = linear_order path
    /\ events_of (main Fake.scenario_environ Fake.scenario_cloud)
       = before ++ settle_and_report instance
    /\ actions_of before = removelast (linear_order path).
Proof.
  destruct (successful_run_is_linear Fake.scenario_environ (W := Fake.cloud))
    as [H _].
  apply (H Fake.scenario_cloud). vm_compute. reflexivity.
Defined.


Lemma scenario_group_holds_the_configured_rules :
  In (mk_security_group "sg-001" EC2_SECURITY_GROUP_NAME "vpc-1" INGRESS_RULES)
     (Fake.groups
        (final_of (create_security_group "vpc-1" Fake.scenario_cloud)))
  /\ permits INGRESS_RULES "tcp" 80 "0.0.0.0/0" = true.
Proof.
  destruct new_group_gets_exactly_the_configured_rules
    as (Hpermits & _ & _ & Hcloud).
  split.
  - destruct (Hcloud "vpc-1" Fake.scenario_cloud
                (snd (invoke (create_group_call "vpc-1") Fake.scenario_cloud))
                (final_of (create_security_group "vpc-1" Fake.scenario_cloud))
                (mk_create_group_response "sg-001"))
      as (_ & _ & Hin).
    + vm_compute. reflexivity.
    + vm_compute. reflexivity.
    + exact Hin.
  - apply Hpermits. repeat split. right. reflexivity.
Defined.

(** * Further properties of the script *)

(** ** The membership test behind the classification of errors *)

Lemma append_assoc (a b c : string) :
  ((a ++ b) ++ c)%string = (a ++ b ++ c)%string.
Proof.
  induction a as [| x a IH]; cbn [String.append];
    [reflexivity | rewrite IH; reflexivity].
Qed.

Lemma prefix_iff (needle haystack : string) :
  String.prefix needle haystack = true
  <-> exists rest, haystack = (needle ++ rest)%string.
Proof.
  revert haystack. induction needle as [| x n IH]; intros haystack.
  - destruct haystack; cbn; split; eauto.
  - destruct haystack as [| y h]; cbn [String.prefix String.append].
    + split; [intros H; discriminate H | intros [rest H]; discriminate H].
    + destruct (ascii_dec x y) as [-> | Hxy].
      * rewrite IH. split; intros [rest H]; exists rest.
        -- rewrite H. reflexivity.
        -- inversion H. reflexivity.
      * split; [intros H; discriminate H |].
        intros [rest H]. inversion H. congruence.
Qed.

Lemma str_in_step (needle : string) (c : ascii) (haystack : string) :
  str_in needle (String c haystack)
  = String.prefix needle (String c haystack) || str_in needle haystack.
Proof.
  unfold str_in. cbn [String.index].
  destruct (String.prefix needle (String c haystack)); [reflexivity |].
  destruct (String.index 0 needle haystack); reflexivity.
Qed.

(** X1. [needle in haystack], as the script uses it to classify an error,
    holds exactly when the haystack is some text, then the needle, then some
    text. *)
Theorem str_in_iff_contains (needle haystack : string) :
  str_in needle haystack = true
  <-> exists before after,
        haystack = (before ++ needle ++ after)%string.
Proof.
  induction haystack as [| c h IH].
  - unfold str_in. cbn [String.index]. destruct needle as [| x n].
    + split; [intros _; exists "", ""; reflexivity | reflexivity].
    + split; [intros H; discriminate H |].
      intros (before & after & H). destruct before; discriminate H.
  - rewrite str_in_step, orb_true_iff, prefix_iff, IH. split.
    + intros [[rest H] | (before & after & H)].
      * exists "", rest. exact H.
      * exists (String c before), after. rewrite H. reflexivity.
    + intros (before & after & H). destruct before as [| x before].
      * left. exists after. exact H.
      * right. inversion H. exists before, after. reflexivity.
Qed.

Lemma str_in_iff_contains_example :
  str_in "Duplicate" "InvalidGroup.Duplicate" = true.
Proof.
  apply (proj2 (str_in_iff_contains "Duplicate" "InvalidGroup.Duplicate")).
  exists "InvalidGroup.", "". reflexivity.
Defined.

Lemma str_in_after (needle before text : string) :
  str_in needle text = true -> str_in needle (before ++ text) = true.
Proof.
  rewrite !str_in_iff_contains. intros (a & b & ->).
  exists (before ++ a)%string, b. rewrite append_assoc. reflexivity.
Qed.

Lemma str_in_before (needle text after : string) :
  str_in needle text = true -> str_in needle (text ++ after) = true.
Proof.
  rewrite !str_in_iff_contains. intros (a & b & ->).
  exists a, (b ++ after)%string. rewrite !append_assoc. reflexivity.
Qed.

(** An error is classified as a duplicate as soon as the marker occurs in
    its code, in its message or in the name of the operation. *)
Lemma quoted_marker_is_classified (e : client_error) :
  str_in "InvalidGroup.Duplicate" (error_code e) = true
  \/ str_in "InvalidGroup.Duplicate" (operation_name e) = true
  \/ str_in "InvalidGroup.Duplicate" (error_message e) = true ->
  str_in "InvalidGroup.Duplicate" (str e) = true.
Proof.
  unfold str. intros [H | [H | H]].
  - apply str_in_after, str_in_before, H.
  - do 3 apply str_in_after. apply str_in_before, H.
  - do 5 apply str_in_after. exact H.
Qed.

(** X2. The classification reads the whole text of the error: a creation
    rejected for any reason whose code, operation name or message quotes the
    marker sends the resolver to the lookup, with no ERROR record. *)
Theorem quoted_marker_sends_resolver_to_lookup
    (W : Type) (client : CloudClient W) (vpc_id : string) (w w1 : W)
    (e : client_error) :
  invoke (create_group_call vpc_id) w = (Raised (ClientError e), w1) ->
  str_in "InvalidGroup.Duplicate" (error_code e) = true
  \/ str_in "InvalidGroup.Duplicate" (operation_name e) = true
  \/ str_in "InvalidGroup.Duplicate" (error_message e) = true ->
  calls_of (events_of (create_security_group vpc_id w))
  = [create_group_call vpc_id; lookup_call]
  /\ logged ERROR (events_of (create_security_group vpc_id w)) = [].
Proof.
  intros Hcreate Hquoted.
  rewrite (resolver_duplicate_run vpc_id w w1 e Hcreate
             (quoted_marker_is_classified e Hquoted)).
  destruct (invoke lookup_call w1) as [[[| sg rest] | x] w2];
    split; reflexivity.
Qed.

Lemma quoting_rejection_is_looked_up :
  calls_of
    (events_of
       (create_security_group "vpc-1"
          (MoreInputs.raising OpCreateSecurityGroup
             (ClientError MoreInputs.QUOTING_ERROR))))
  = [create_group_call "vpc-1"; lookup_call].
Proof.
  apply (quoted_marker_sends_resolver_to_lookup
           Fake.cloud Fake.client "vpc-1"
           (MoreInputs.raising OpCreateSecurityGroup
              (ClientError MoreInputs.QUOTING_ERROR))
           (MoreInputs.raising OpCreateSecurityGroup
              (ClientError MoreInputs.QUOTING_ERROR))
           MoreInputs.QUOTING_ERROR).
  - vm_compute. reflexivity.
  - right. right. vm_compute. reflexivity.
Defined.

(** ** What becomes of a rejected call *)

(** X3. What the run does with a client error depends on the call that
    raised it: from network discovery or the fallback lookup it is not
    handled and ends the run unlogged; from group creation or rule
    application it is classified (lookup, or ERROR record and exit); from
    instance creation, the wait or the reload it gives the launch ERROR record
    and exit; from monitoring it gives a WARNING record and the run
    completes. *)
Theorem client_errors_by_operation
    (environ : string -> option string) (W : Type) (client : CloudClient W)
    (w : W) (c : api_call) (e : client_error) :
  In (Call c (Some (ClientError e))) (events_of (main environ w)) ->
  fate_of_client_error c e (outcome_of (main environ w))
                       (events_of (main environ w)).
Proof.
  unfold_program. explore;
    unfold outcome_of, events_of; cbn [fst snd];
    intros Hin; which_event Hin;
    inversion Hin; subst; unfold fate_of_client_error; cbn [op_of];
    first
      [ split; [reflexivity | reflexivity]
      | split; [reflexivity | split; reflexivity]
      | left; split; [assumption | reflexivity]
      | right; split; [assumption | split; reflexivity] ].
Qed.

Lemma rejected_discovery_is_not_logged :
  outcome_of
    (main Fake.scenario_environ
       (Inputs.failing OpDescribeVpcs "UnauthorizedOperation"))
  = Raised (ClientError
              (mk_client_error "UnauthorizedOperation" "rejected" "op"))
  /\ logged ERROR
       (events_of
          (main Fake.scenario_environ
             (Inputs.failing OpDescribeVpcs "UnauthorizedOperation")))
     = [].
Proof.
  apply (client_errors_by_operation Fake.scenario_environ Fake.cloud
           Fake.client (Inputs.failing OpDescribeVpcs "UnauthorizedOperation")
           DescribeVpcs
           (mk_client_error "UnauthorizedOperation" "rejected" "op")).
  vm_compute. right. left. reflexivity.
Defined.

(** ** The shape of every run *)

(** X8. A run logs at most one ERROR record; when it logs one, that
    record is the last event of the run and the run ends with
    [SystemExit(1)]: nothing is called, logged or slept after it. *)
Theorem error_record_ends_the_run
    (environ : string -> option string) (W : Type) (client : CloudClient W)
    (w : W) :
  logged ERROR (events_of (main environ w)) = []
  \/ exists before msg,
       events_of (main environ w) = before ++ [Log ERROR msg]
       /\ logged ERROR before = []
       /\ outcome_of (main environ w) = Raised (SystemExit 1).
Proof.
  unfold_program. explore; unfold outcome_of, events_of; cbn [fst snd];
    first
      [ left; reflexivity
      | match goal with
        | |- _ \/ (exists before msg, ?t = _ /\ _) =>
            right; exists (removelast t); eexists;
            split; [reflexivity | split; reflexivity]
        end ].
Qed.

(** X7. All the instance-directed calls of a run (wait, reload, monitoring)
    name one and the same instance, and the monitoring call names only that
    one. *)
Theorem one_instance_is_followed
    (environ : string -> option string) (W : Type) (client : CloudClient W)
    (w : W) :
  exists i, Forall (targets i) (calls_of (events_of (main environ w))).
Proof.
  unfold_program. explore; unfold events_of; cbn [snd calls_of];
    first
      [ match goal with
        | |- context [WaitUntilRunning ?j] => exists j
        end
      | exists "" ];
    repeat constructor.
Qed.

(** X6. Only a client error is swallowed by [setup_monitoring]: when the
    monitoring call raises an exception of another class, the run ends with
    that exception right after the call, without the settle wait and without
    the report. *)
Theorem other_monitoring_failure_aborts
    (environ : string -> option string) (W : Type) (client : CloudClient W)
    (w w1 w2 : W) (instance : Instance) (t1 : list event) (x : exn) :
  launch_ec2_instance environ w = (Returned instance, w1, t1) ->
  invoke (MonitorInstances [id instance]) w1 = (Raised x, w2) ->
  (forall e, x <> ClientError e) ->
  setup_monitoring environ (id instance) w1
  = (Raised x, w2, [Call (MonitorInstances [id instance]) (Some x)])
  /\ main environ w
     = (Raised x, w2,
        START_RECORD :: t1
          ++ [Call (MonitorInstances [id instance]) (Some x)]).
Proof.
  intros Hlaunch Hmon Hother.
  split.
  - unfold setup_monitoring, boto3_client, try_except_ClientError, bind,
      call, logging_info.
    rewrite (launch_returns_connected environ w w1 instance t1 Hlaunch), Hmon.
    destruct x; try reflexivity.
    contradiction (Hother e). reflexivity.
  - rewrite (main_after_launch environ w w1 instance t1 Hlaunch), Hmon.
    destruct x; try reflexivity.
    contradiction (Hother e). reflexivity.
Qed.

Lemma lost_connection_aborts_after_launch :
  outcome_of
    (main Fake.scenario_environ
       (MoreInputs.raising OpMonitorInstances (OtherError "connection lost")))
  = Raised (OtherError "connection lost").
Proof.
  destruct (other_monitoring_failure_aborts Fake.scenario_environ
              Fake.cloud Fake.client
              (MoreInputs.raising OpMonitorInstances
                                  (OtherError "connection lost"))
              (final_of
                 (launch_ec2_instance Fake.scenario_environ
                    (MoreInputs.raising OpMonitorInstances
                                        (OtherError "connection lost"))))
              (final_of
                 (launch_ec2_instance Fake.scenario_environ
                    (MoreInputs.raising OpMonitorInstances
                                        (OtherError "connection lost"))))
              (mk_Instance "i-001" (Some "203.0.113.5"))
              (events_of
                 (launch_ec2_instance Fake.scenario_environ
                    (MoreInputs.raising OpMonitorInstances
                                        (OtherError "connection lost"))))
              (OtherError "connection lost"))
    as [_ Hmain].
  - vm_compute. reflexivity.
  - vm_compute. reflexivity.
  - intros e H. discriminate H.
  - rewrite Hmain. reflexivity.
Defined.

(** ** The provisioner *)



(** X5. The instance the provisioner returns carries the address answered
    by the reload.  When that answer holds no address, a run that completes
    still reports the endpoints, with the text None in place of the
    address. *)
Theorem missing_address_is_reported_as_None
    (environ : string -> option string) (W : Type) (client : CloudClient W)
    (w w1 : W) (instance : Instance) (t1 : list event) :
  launch_ec2_instance environ w = (Returned instance, w1, t1) ->
  (exists w0,
      invoke (Reload (id instance)) w0
      = (Returned (public_ip_address instance), w1))
  /\ (public_ip_address instance = None ->
      outcome_of (main environ w) = Returned tt ->
      In (Log INFO "Website should be available at: http://None/")
         (events_of (main environ w))
      /\ In (Log INFO "AI-powered features available at: http://None/ai (POST JSON: {'text': 'your input'})")
            (events_of (main environ w))).
Proof.
  intros Hlaunch. split.
  - revert Hlaunch. unfold_program. explore;
      intros H; try discriminate H; inversion H; subst;
      cbn [id public_ip_address]; eexists; eassumption.
  - intros Hnone.
    rewrite (main_after_launch environ w w1 instance t1 Hlaunch).
    destruct (invoke (MonitorInstances [id instance]) w1)
      as [[[] | [e | r | | code | d]] w2];
      unfold outcome_of, events_of; cbn [fst snd];
      intros Hret; try discriminate Hret;
      unfold settle_and_report; rewrite Hnone; cbn [str_opt];
      split; right; apply in_or_app; right; cbn; tauto.
Qed.

Lemma private_instance_is_reported_as_None :
  In (Log INFO "Website should be available at: http://None/")
     (events_of (main Fake.scenario_environ MoreInputs.private_cloud)).
Proof.
  destruct (missing_address_is_reported_as_None Fake.scenario_environ
              Fake.cloud Fake.client MoreInputs.private_cloud
              (final_of
                 (launch_ec2_instance Fake.scenario_environ
                    MoreInputs.private_cloud))
              (mk_Instance "i-001" None)
              (events_of
                 (launch_ec2_instance Fake.scenario_environ
                    MoreInputs.private_cloud)))
    as [_ H].
  - vm_compute. reflexivity.
  - destruct H as [H _]; [reflexivity | vm_compute; reflexivity | exact H].
Defined.

(** ** Rule application rejected after the creation *)

(** The resolver when the group is created and its rules are rejected with
    an error that is not classified as a duplicate. *)
Lemma resolver_rules_rejected_run
    (W : Type) (client : CloudClient W) (vpc_id : string) (w w1 w2 : W)
    (r : create_group_response) (e : client_error) :
  invoke (create_group_call vpc_id) w = (Returned r, w1) ->
  invoke (AuthorizeSecurityGroupIngress (GroupId r) INGRESS_RULES) w1
    = (Raised (ClientError e), w2) ->
  str_in "InvalidGroup.Duplicate" (str e) = false ->
  create_security_group vpc_id w
  = (Raised (SystemExit 1), w2,
     [Call (create_group_call vpc_id) None;
      Log INFO ("Created security group " ++ EC2_SECURITY_GROUP_NAME
                  ++ " with ID " ++ GroupId r);
      Call (AuthorizeSecurityGroupIngress (GroupId r) INGRESS_RULES)
           (Some (ClientError e));
      Log ERROR ("Error creating security group: " ++ str e)]).
Proof.
  intros Hcreate Hauth Hdup. unfold_program.
  answer Hcreate. answer Hauth. rewrite Hdup. reflexivity.
Qed.

(** X4. When the rules of a freshly created group are rejected, the
    resolver logs "Error creating security group" and raises
    [SystemExit(1)]; the group stays, with no rule.  In the reference cloud a
    later call, made once the rejection has gone, makes the creation attempt
    and the lookup, applies no rule and returns the first group that carries
    the name; when
    no group of another network carries the name, that group is the one left
    behind, which is thus adopted with no ingress rule at all. *)
Theorem rejected_rules_leave_a_bare_group :
  (forall (W : Type) (client : CloudClient W) (vpc_id : string) (w w1 w2 : W)
          (r : create_group_response) (e : client_error),
      invoke (create_group_call vpc_id) w = (Returned r, w1) ->
      invoke (AuthorizeSecurityGroupIngress (GroupId r) INGRESS_RULES) w1
        = (Raised (ClientError e), w2) ->
      str_in "InvalidGroup.Duplicate" (str e) = false ->
      outcome_of (create_security_group vpc_id w) = Raised (SystemExit 1)
      /\ final_of (create_security_group vpc_id w) = w2
      /\ logged ERROR (events_of (create_security_group vpc_id w))
         = [("Error creating security group: " ++ str e)%string])
  /\ (forall (vpc_id g : string) (rest : list string) (s : Fake.cloud)
             (e : client_error),
         Fake.faults s = [(OpAuthorizeSecurityGroupIngress, ClientError e)] ->
         str_in "InvalidGroup.Duplicate" (str e) = false ->
         Fake.mem vpc_id (Fake.networks s) = true ->
         List.existsb
           (fun g' => Fake.named EC2_SECURITY_GROUP_NAME g'
                      && Fake.in_network vpc_id g')
           (Fake.groups s) = false ->
         Fake.group_ids s = g :: rest ->
         outcome_of (create_security_group vpc_id s) = Raised (SystemExit 1)
         /\ let later :=
              MoreInputs.recovered (final_of (create_security_group vpc_id s))
            in
            In (mk_security_group g EC2_SECURITY_GROUP_NAME vpc_id [])
               (Fake.groups later)
            /\ final_of (create_security_group vpc_id later) = later
            /\ calls_of (events_of (create_security_group vpc_id later))
               = [create_group_call vpc_id; lookup_call]
            /\ count_op OpAuthorizeSecurityGroupIngress
                 (events_of (create_security_group vpc_id later)) = 0
            /\ (exists sg others,
                   Fake.groups_named EC2_SECURITY_GROUP_NAME later
                   = sg :: others
                   /\ outcome_of (create_security_group vpc_id later)
                      = Returned (sg_GroupId sg))
            /\ (name_confined_to EC2_SECURITY_GROUP_NAME vpc_id s = true ->
                outcome_of (create_security_group vpc_id later) = Returned g
                /\ Fake.groups_named EC2_SECURITY_GROUP_NAME later
                   = [mk_security_group g EC2_SECURITY_GROUP_NAME vpc_id []])).
Proof.
  split.
  - intros W client vpc_id w w1 w2 r e Hcreate Hauth Hdup.
    rewrite (resolver_rules_rejected_run W client vpc_id w w1 w2 r e
               Hcreate Hauth Hdup).
    repeat split.
  - intros vpc_id g rest s e Hf Hdup Hnet Habsent Hids.
    set (s1 := {| Fake.networks := Fake.networks s;
                  Fake.groups :=
                    Fake.groups s
                      ++ [mk_security_group g EC2_SECURITY_GROUP_NAME
                                            vpc_id []];
                  Fake.instances := Fake.instances s;
                  Fake.group_ids := rest;
                  Fake.slots := Fake.slots s;
                  Fake.faults := Fake.faults s |}).
    assert (Hcreate : invoke (create_group_call vpc_id) s
                      = (Returned (mk_create_group_response g), s1)).
    { cbn [invoke Fake.client]. unfold Fake.serve, create_group_call.
      rewrite Hf. cbn [Fake.injected op_of operation_eqb].
      unfold Fake.create_group. rewrite Hnet, Habsent, Hids. reflexivity. }
    assert (Hauth : invoke (AuthorizeSecurityGroupIngress g INGRESS_RULES) s1
                    = (Raised (ClientError e), s1)).
    { cbn [invoke Fake.client]. unfold Fake.serve. unfold s1 at 1.
      cbn [Fake.faults]. rewrite Hf.
      cbn [Fake.injected op_of operation_eqb]. reflexivity. }
    rewrite (resolver_rules_rejected_run _ _ vpc_id s s1 s1
               (mk_create_group_response g) e Hcreate Hauth Hdup).
    split; [reflexivity |].
    unfold final_of at 1. cbn [fst snd].
    set (later := MoreInputs.recovered s1). cbv zeta.
    destruct (duplicate_in_cloud vpc_id later) as (sg & others & e' & Hn & Hrun).
    + reflexivity.
    + exact Hnet.
    + unfold later, MoreInputs.recovered, s1. cbn [Fake.groups].
      rewrite List.existsb_app. cbn [List.existsb].
      unfold Fake.named at 2, Fake.in_network at 2.
      cbn [sg_GroupName sg_VpcId]. rewrite !String.eqb_refl.
      cbn [andb orb]. apply orb_true_r.
    + rewrite Hrun. unfold outcome_of, final_of, events_of. cbn [fst snd].
      split.
      { unfold later, MoreInputs.recovered, s1. cbn [Fake.groups].
        apply List.in_or_app. right. left. reflexivity. }
      split; [reflexivity |]. split; [reflexivity |].
      split; [reflexivity |].
      split; [exists sg, others; split; [exact Hn | reflexivity] |].
      intros Hconf.
      assert (Hnamed : Fake.groups_named EC2_SECURITY_GROUP_NAME later
                = [mk_security_group g EC2_SECURITY_GROUP_NAME vpc_id []]).
      { unfold Fake.groups_named, later, MoreInputs.recovered, s1.
        cbn [Fake.groups]. rewrite List.filter_app.
        pose proof (Idempotency.confined_and_absent EC2_SECURITY_GROUP_NAME
                      vpc_id (fun g' => g') (Fake.groups s)
                      (fun _ => eq_refl) Habsent Hconf) as Hnone.
        rewrite List.map_id in Hnone. rewrite Hnone. reflexivity. }
      rewrite Hnamed in Hn. inversion Hn; subst sg others.
      split; [reflexivity | exact Hnamed].
Qed.

Lemma bare_group_is_adopted_in_the_scenario :
  outcome_of
    (create_security_group "vpc-1"
       (MoreInputs.recovered
          (final_of
             (create_security_group "vpc-1"
                (Inputs.failing OpAuthorizeSecurityGroupIngress
                                "RulesPerSecurityGroupLimitExceeded")))))
  = Returned "sg-001".
Proof.
  destruct rejected_rules_leave_a_bare_group as [_ H].
  destruct (H "vpc-1" "sg-001" []
              (Inputs.failing OpAuthorizeSecurityGroupIngress
                              "RulesPerSecurityGroupLimitExceeded")
              (mk_client_error "RulesPerSecurityGroupLimitExceeded"
                               "rejected" "op"))
    as (_ & _ & _ & _ & _ & _ & Hlater); [vm_compute; reflexivity .. |].
  destruct Hlater as [Hlater _]; [vm_compute; reflexivity | exact Hlater].
Defined.

(** ** Running the deployment again *)

Module Rerun.
Import Fake.





End Rerun.


Section RerunOnTheReferenceCloud.

Variable environ : string -> option string.






End RerunOnTheReferenceCloud.


(** ** What a failed run leaves behind *)

(** The reference cloud answers a launch that asks for at least one
    instance with at least one. *)
Lemma launch_answer_is_not_empty (r : run_request) (s s' : Fake.cloud)
    (l : list Instance) :
  Fake.serve (CreateInstances r) s = (Returned l, s') ->
  MinCount r = 1%Z ->
  l <> [].
Proof.
  unfold Fake.serve.
  destruct (Fake.injected _ _); [intros H; discriminate H |].
  unfold Fake.run_instances.
  destruct (negb _); [intros H; discriminate H |].
  destruct (_ || _)%bool; [intros H; discriminate H |].
  destruct (_ <? _)%Z eqn:Hfew; intros H; inversion H; subst.
  intros Hmin Hnil. rewrite Hmin in Hfew.
  apply List.map_eq_nil in Hnil. rewrite Hnil in Hfew.
  cbn in Hfew. discriminate Hfew.
Qed.

(** X11. Nothing is undone in the reference cloud either: once the
    instance-creation call of a run has returned, the cloud holds exactly one
    more instance, launched from that request, at the end of the run,
    whatever the run's outcome (timeout, rejected reload, failed monitoring
    or success). *)
Theorem created_instance_stays
    (environ : string -> option string) (s : Fake.cloud) (r : run_request) :
  In (Call (CreateInstances r) None) (events_of (main environ s)) ->
  launch_requests (final_of (main environ s)) = launch_requests s ++ [r].
Proof.
  unfold_program. explore; unfold events_of, final_of; cbn [fst snd];
    intros Hin; which_event Hin; inversion Hin; subst;
    try match goal with
        | H : invoke (CreateInstances ?q) _ = (Returned [], _) |- _ =>
            exfalso;
            exact (launch_answer_is_not_empty q _ _ [] H eq_refl eq_refl)
        end;
    account_for_launches; reflexivity.
Qed.

Lemma stuck_instance_stays :
  outcome_of (main Fake.scenario_environ Inputs.stuck_cloud)
  = Raised (WaiterError "Max attempts exceeded")
  /\ launch_requests
       (final_of (main Fake.scenario_environ Inputs.stuck_cloud))
     = [instance_request Fake.scenario_environ "sg-001"].
Proof.
  split; [vm_compute; reflexivity |].
  apply (created_instance_stays Fake.scenario_environ Inputs.stuck_cloud
           (instance_request Fake.scenario_environ "sg-001")).
  vm_compute. do 6 right. left. reflexivity.
Defined.
